(** * WeatherKit next-hour forecast sensor

    A shallow embedding of [sensor.py] (class
    [WeatherKitNextHourForecastSensor]) and the properties its design
    document states about it.

    Modelling choices, fixed once for the whole development:

    - Python [int] is [Z]; a sample's intensity, a Python [float] that is
      only ever compared ([>], [==], [<]) and passed to [max], is a
      rational [Q].  Every finite float and every JSON integer is a
      rational and the comparisons agree; NaN and the infinities have no
      counterpart.
    - A dictionary whose keys are fixed by the API is a record whose fields
      are [option]s ([None]: the key is absent), so that [d.get(k, dflt)]
      is [default dflt (k d)].  Dictionaries keyed by arbitrary strings
      (translations, placeholders) are [gmap string string].
    - Code that can raise returns a [result]; [try]/[except] is a match on
      it.  Calls to the logger are left out: they return nothing and no
      property below is about the log. *)

From Stdlib Require Import ZArith QArith Lia DecimalString String Ascii.
From stdpp Require Import base option list sorting strings gmap.


(** ** Exceptions *)

(** The exceptions [str.format] raises.  [Unmodelled] stands for what
    [str.format] does outside the fragment of format strings modelled
    below; it is never caught. *)
Inductive exn : Set :=
| KeyError
| ValueError
| IndexError
| Unmodelled.

Inductive result (A : Type) : Type :=
| Ok (a : A)
| Raise (e : exn).

Arguments Ok {A} a.
Arguments Raise {A} e.

Definition bind {A B : Type} (r : result A) (k : A -> result B) : result B :=
  match r with
  | Ok a => k a
  | Raise e => Raise e
  end.

Notation "'let!' x ':=' r 'in' k" := (bind r (fun x => k))
  (at level 10, x name, r at level 100, k at level 200).

(** ** The Python built-ins the sensor calls *)

Module Py.

(** [a > b] on numbers. *)
Definition gt (a b : Q) : bool :=
  match (a ?= b)%Q with Gt => true | _ => false end.

(** [a < b] on numbers. *)
Definition lt (a b : Q) : bool :=
  match (a ?= b)%Q with Lt => true | _ => false end.

(** [a == b] on numbers. *)
Definition eq (a b : Q) : bool :=
  match (a ?= b)%Q with Eq => true | _ => false end.

(** [max(a, b)]: the first argument unless the second is greater. *)
Definition max (a b : Q) : Q := if gt b a then b else a.

(** [str(n)] for an [int]. *)
Definition str (n : Z) : string := NilZero.string_of_int (Z.to_int n).

(** [sep.join(parts)]. *)
Fixpoint join (sep : string) (parts : list string) : string :=
  match parts with
  | [] => ""
  | [p] => p
  | p :: rest => p +:+ sep +:+ join sep rest
  end.

(** [s.replace(old, new)] for one-character [old] and [new]. *)
Fixpoint replace (old new : ascii) (s : string) : string :=
  match s with
  | EmptyString => EmptyString
  | String c rest =>
      String (if Ascii.eqb c old then new else c) (replace old new rest)
  end.

Definition islower (c : ascii) : bool :=
  (N_of_ascii "a" <=? N_of_ascii c)%N && (N_of_ascii c <=? N_of_ascii "z")%N.

Definition isupper (c : ascii) : bool :=
  (N_of_ascii "A" <=? N_of_ascii c)%N && (N_of_ascii c <=? N_of_ascii "Z")%N.

Definition upper (c : ascii) : ascii := ascii_of_N (N_of_ascii c - 32).
Definition lower (c : ascii) : ascii := ascii_of_N (N_of_ascii c + 32).

(** [s.title()] on ASCII text: a letter that follows a letter is put in
    lower case, any other letter in upper case. *)
Fixpoint title_from (previous_is_cased : bool) (s : string) : string :=
  match s with
  | EmptyString => EmptyString
  | String c rest =>
      if islower c then
        String (if previous_is_cased then c else upper c) (title_from true rest)
      else if isupper c then
        String (if previous_is_cased then lower c else c) (title_from true rest)
      else String c (title_from false rest)
  end.

Definition title (s : string) : string := title_from false s.

Definition isdigit (c : ascii) : bool :=
  (N_of_ascii "0" <=? N_of_ascii c)%N && (N_of_ascii c <=? N_of_ascii "9")%N.

Fixpoint all_digits (s : string) : bool :=
  match s with
  | EmptyString => true
  | String c rest => isdigit c && all_digits rest
  end.

(** The value of the replacement field [name] in
    [template.format( **kwargs )], a call without positional arguments:
    an empty or numeric name asks for a positional argument.  An index
    too long to be a Python index, on which [str.format] raises
    [ValueError] instead, is outside the modelled fragment; no theorem
    below relies on one. *)
Definition get_field (kwargs : gmap string string) (name : string)
  : result string :=
  if all_digits name then Raise IndexError
  else match kwargs !! name with
       | Some v => Ok v
       | None => Raise KeyError
       end.

(** [template.format( **kwargs )], left to right.  [field] is [None] in
    literal text and [Some name] inside a replacement field whose name
    read so far is [name]; [out] is the text produced so far.  Attribute
    and index lookups, conversions and format specifications ([.], [[],
    [!], [:] inside a field) are outside the modelled fragment. *)
Fixpoint format_from (kwargs : gmap string string) (field : option string)
    (out : string) (template : string) : result string :=
  match field with
  | None =>
      match template with
      | EmptyString => Ok out
      | String "{" (String "{" rest) =>
          format_from kwargs None (out +:+ "{") rest
      | String "{" rest => format_from kwargs (Some "") out rest
      | String "}" (String "}" rest) =>
          format_from kwargs None (out +:+ "}") rest
      | String "}" _ => Raise ValueError
      | String c rest =>
          format_from kwargs None (out +:+ String c EmptyString) rest
      end
  | Some name =>
      match template with
      | EmptyString => Raise ValueError
      | String "}" rest =>
          let! v := get_field kwargs name in
          format_from kwargs None (out +:+ v) rest
      | String "{" _ => Raise ValueError
      | String "." _ | String "[" _ | String "!" _ | String ":" _ =>
          Raise Unmodelled
      | String c rest =>
          format_from kwargs (Some (name +:+ String c EmptyString)) out rest
      end
  end.

Definition format (template : string) (kwargs : gmap string string)
  : result string :=
  format_from kwargs None "" template.

End Py.

(** ** Constants ([const.py]) *)

Definition DOMAIN : string := "custom_weatherkit".
Definition ATTR_CURRENT_WEATHER : string := "currentWeather".
Definition ATTR_FORECAST_NEXT_HOUR : string := "forecastNextHour".

(** ** The forecast payload *)

(** One element of the [minutes] array. *)
Record Minute : Type := {
  startTime : option string;
  precipitationIntensity : option Q;
  precipitationChance : option Q;
  precipitationType : option string
}.

(** [coordinator.data[ATTR_FORECAST_NEXT_HOUR]]. *)
Record NextHour : Type := {
  forecastStart : option string;
  forecastEnd : option string;
  minutes : option (list Minute)
}.

(** [coordinator.data[ATTR_CURRENT_WEATHER]]; only [daylight] is read. *)
Record CurrentWeather : Type := {
  daylight : option bool
}.

(** [coordinator.data]: the two data sets the sensor reads. *)
Record CoordinatorData : Type := {
  currentWeather : option CurrentWeather;
  forecastNextHour : option NextHour
}.

(** The coordinator as the sensor sees it.  [data] is [None] before the
    first refresh.  [translations] is what
    [translation.async_get_cached_translations] hands back. *)
Record Coordinator : Type := {
  last_update_success : bool;
  data : option CoordinatorData;
  translations : gmap string string
}.

(** Truth value of a dictionary: it has a key.  Keys the sensor never reads
    are not part of the records above; wherever one of them could make a
    dictionary true that is false here, the branch taken next returns the
    same value ([None] for an absent data set, ["no_precipitation"] for an
    absent [minutes]). *)
Definition truthy_data (d : CoordinatorData) : bool :=
  bool_decide (is_Some (currentWeather d)) || bool_decide (is_Some (forecastNextHour d)).

Definition truthy_next_hour (d : NextHour) : bool :=
  bool_decide (is_Some (forecastStart d)) || bool_decide (is_Some (forecastEnd d))
  || bool_decide (is_Some (minutes d)).

(** Truth value of a list: it is not empty. *)
Definition truthy_list {A : Type} (l : list A) : bool :=
  match l with [] => false | _ => true end.

(** ** Precipitation periods *)

(** The dictionary appended to [precipitation_periods].  [type_] holds
    [current_period_type], which Python initialises to [None]. *)
Record Period : Type := {
  start : Z;
  end_ : Z;
  type_ : option string;
  max_intensity : Q
}.

(** The local variables of the segmentation loop. *)
Record LoopState : Type := {
  precipitation_periods : list Period;
  current_period_start : option Z;
  current_period_type : option string;
  current_period_max_intensity : Q
}.

Definition loop_init : LoopState :=
  {| precipitation_periods := [];
     current_period_start := None;
     current_period_type := None;
     current_period_max_intensity := 0 |}.

(** [enumerate(minutes)], counting from [i]. *)
Fixpoint enumerate_from {A : Type} (i : Z) (l : list A) : list (Z * A) :=
  match l with
  | [] => []
  | x :: rest => (i, x) :: enumerate_from (i + 1) rest
  end.

Definition enumerate {A : Type} (l : list A) : list (Z * A) := enumerate_from 0 l.

(** The body of the [for] loop of [_generate_forecast_summary]
    (lines 146-174).  The three tests of the [if]/[elif] chain each pair a
    test on [intensity] with one on [current_period_start]; the [match]
    below makes the latter first. *)
Definition summary_loop_body (st : LoopState) (im : Z * Minute) : LoopState :=
  let '(i, minute) := im in
  let intensity := default 0%Q (precipitationIntensity minute) in
  let precip_type := default "clear" (precipitationType minute) in
  match current_period_start st with
  | None =>
      if Py.gt intensity 0 then
        {| precipitation_periods := precipitation_periods st;
           current_period_start := Some i;
           current_period_type := Some precip_type;
           current_period_max_intensity := intensity |}
      else st
  | Some s =>
      if Py.gt intensity 0 then
        {| precipitation_periods := precipitation_periods st;
           current_period_start := Some s;
           current_period_type :=
             if negb (String.eqb precip_type "clear") then Some precip_type
             else current_period_type st;
           current_period_max_intensity :=
             Py.max (current_period_max_intensity st) intensity |}
      else if Py.eq intensity 0 then
        {| precipitation_periods :=
             precipitation_periods st ++
             [ {| start := s;
                  end_ := i - 1;
                  type_ := current_period_type st;
                  max_intensity := current_period_max_intensity st |} ];
           current_period_start := None;
           current_period_type := None;
           current_period_max_intensity := 0 |}
      else st
  end.

(** After the loop (lines 176-185): a period that is still open ends at
    the last sample. *)
Definition summary_loop_end (st : LoopState) (len : Z) : list Period :=
  match current_period_start st with
  | Some s =>
      precipitation_periods st ++
      [ {| start := s;
           end_ := len - 1;
           type_ := current_period_type st;
           max_intensity := current_period_max_intensity st |} ]
  | None => precipitation_periods st
  end.

(** Lines 141-185 of [_generate_forecast_summary]: the segmenter. *)
Definition summary_periods (minutes : list Minute) : list Period :=
  summary_loop_end
    (fold_left summary_loop_body (enumerate minutes) loop_init)
    (Z.of_nat (length minutes)).

(** ** Classification and translation *)

(** [_get_precipitation_description_key]. *)
Definition _get_precipitation_description_key
    (precip_type : option string) (max_intensity : Q) : string :=
  let intensity_prefix :=
    if Py.lt max_intensity (5 # 2) then "light_"
    else if Py.lt max_intensity 10 then "moderate_"
    else "heavy_" in
  if bool_decide (precip_type = Some "rain") then intensity_prefix +:+ "rain"
  else if bool_decide (precip_type = Some "snow") then intensity_prefix +:+ "snow"
  else if bool_decide (precip_type = Some "sleet") then intensity_prefix +:+ "sleet"
  else if bool_decide (precip_type = Some "hail") then intensity_prefix +:+ "hail"
  else intensity_prefix +:+ "precipitation".

(** [_translate_state]. *)
Definition _translate_state (translations : gmap string string)
    (state_key : string) : string :=
  let translation_key :=
    "component." +:+ DOMAIN +:+
    ".entity.sensor.next_hour_forecast.state." +:+ state_key in
  default (Py.title (Py.replace "_" " " state_key))
          (translations !! translation_key).

(** The [templates] dictionary of [_translate_forecast]. *)
Definition templates : gmap string string :=
  <["now" := "{precipitation} now"]>
  (<["for_next_minutes" := "{precipitation} for the next {duration} minutes"]>
  (<["in_minutes" := "{precipitation} in {minutes} minutes"]>
  (<["starting_in_minutes_lasting" :=
       "{precipitation} starting in {start_minutes} minutes, lasting {duration} minutes"]>
   ∅))).

(** [_translate_forecast]: [KeyError] and [ValueError] are caught, any other
    exception goes on to the caller. *)
Definition _translate_forecast (key : string)
    (placeholders : gmap string string) : result string :=
  let template := default (Py.replace "_" " " key) (templates !! key) in
  match Py.format template placeholders with
  | Ok s => Ok s
  | Raise KeyError | Raise ValueError => Ok template
  | Raise e => Raise e
  end.

(** ** The summary *)

(** One turn of the loop over [precipitation_periods] (lines 192-238): the
    fragment appended to [summary_parts]. *)
Definition summary_part (translations : gmap string string) (period : Period)
    : result string :=
  let start_minute := start period in
  let end_minute := end_ period in
  let duration := (end_minute - start_minute + 1)%Z in
  let precip_type := type_ period in
  let max_intensity := max_intensity period in
  let precip_desc_key :=
    _get_precipitation_description_key precip_type max_intensity in
  let precip_desc := _translate_state translations precip_desc_key in
  if (start_minute =? 0)%Z then
    if (duration =? 1)%Z then
      _translate_forecast "now" {[ "precipitation" := precip_desc ]}
    else
      _translate_forecast "for_next_minutes"
        (<["precipitation" := precip_desc]> {[ "duration" := Py.str duration ]})
  else if (duration =? 1)%Z then
    _translate_forecast "in_minutes"
      (<["precipitation" := precip_desc]> {[ "minutes" := Py.str start_minute ]})
  else
    _translate_forecast "starting_in_minutes_lasting"
      (<["precipitation" := precip_desc]>
       (<["start_minutes" := Py.str start_minute]>
        {[ "duration" := Py.str duration ]})).

(** The loop over [precipitation_periods]: it stops at the first fragment
    that raises. *)
Fixpoint summary_parts (translations : gmap string string)
    (periods : list Period) : result (list string) :=
  match periods with
  | [] => Ok []
  | period :: rest =>
      let! part := summary_part translations period in
      let! parts := summary_parts translations rest in
      Ok (part :: parts)
  end.

(** Lines 187-244 of [_generate_forecast_summary]: the renderer. *)
Definition summary_text (translations : gmap string string)
    (precipitation_periods : list Period) : result string :=
  if negb (truthy_list precipitation_periods) then
    Ok (_translate_state translations "no_precipitation")
  else
    let! parts := summary_parts translations precipitation_periods in
    Ok (if truthy_list parts then Py.join "; " parts
        else _translate_state translations "no_precipitation").

(** [_generate_forecast_summary]. *)
Definition _generate_forecast_summary (translations : gmap string string)
    (minutes : list Minute) : result string :=
  summary_text translations (summary_periods minutes).

(** [native_value] of the next-hour sensor; [Ok None] is Python's [None]. *)
Definition native_value (coordinator : Coordinator) : result (option string) :=
  if negb (last_update_success coordinator) then Ok None
  else match data coordinator with
  | None => Ok None
  | Some data =>
      if negb (truthy_data data) then Ok None
      else match forecastNextHour data with
      | None => Ok None
      | Some next_hour_data =>
          let tr := translations coordinator in
          if negb (truthy_next_hour next_hour_data) then
            Ok (Some (_translate_state tr "no_precipitation"))
          else
            let minutes := default [] (minutes next_hour_data) in
            if negb (truthy_list minutes) then
              Ok (Some (_translate_state tr "no_precipitation"))
            else
              let minutes := take 60 minutes in
              let! summary := _generate_forecast_summary tr minutes in
              Ok (Some summary)
      end
  end.

(** ** The icon *)

(** The body of the [for] loop of [icon] (lines 328-356), the second copy
    of the segmentation loop. *)
Definition icon_loop_body (st : LoopState) (im : Z * Minute) : LoopState :=
  let '(i, minute) := im in
  let intensity := default 0%Q (precipitationIntensity minute) in
  let precip_type := default "clear" (precipitationType minute) in
  match current_period_start st with
  | None =>
      if Py.gt intensity 0 then
        {| precipitation_periods := precipitation_periods st;
           current_period_start := Some i;
           current_period_type := Some precip_type;
           current_period_max_intensity := intensity |}
      else st
  | Some s =>
      if Py.gt intensity 0 then
        {| precipitation_periods := precipitation_periods st;
           current_period_start := Some s;
           current_period_type :=
             if negb (String.eqb precip_type "clear") then Some precip_type
             else current_period_type st;
           current_period_max_intensity :=
             Py.max (current_period_max_intensity st) intensity |}
      else if Py.eq intensity 0 then
        {| precipitation_periods :=
             precipitation_periods st ++
             [ {| start := s;
                  end_ := i - 1;
                  type_ := current_period_type st;
                  max_intensity := current_period_max_intensity st |} ];
           current_period_start := None;
           current_period_type := None;
           current_period_max_intensity := 0 |}
      else st
  end.

(** After the loop of [icon] (lines 358-367). *)
Definition icon_loop_end (st : LoopState) (len : Z) : list Period :=
  match current_period_start st with
  | Some s =>
      precipitation_periods st ++
      [ {| start := s;
           end_ := len - 1;
           type_ := current_period_type st;
           max_intensity := current_period_max_intensity st |} ]
  | None => precipitation_periods st
  end.

(** Lines 323-367 of [icon]. *)
Definition icon_periods (minutes : list Minute) : list Period :=
  icon_loop_end
    (fold_left icon_loop_body (enumerate minutes) loop_init)
    (Z.of_nat (length minutes)).

(** Lines 369-391 of [icon]: the icon of a list of periods. *)
Definition icon_of_periods (precipitation_periods : list Period)
    (is_daylight : bool) : string :=
  match precipitation_periods with
  | [] => if is_daylight then "mdi:weather-sunny" else "mdi:weather-night"
  | first_period :: _ =>
      let precip_type := type_ first_period in
      let max_intensity := max_intensity first_period in
      if bool_decide (precip_type = Some "rain") then
        if Py.lt max_intensity (5 # 2) then "mdi:weather-rainy"
        else "mdi:weather-pouring"
      else if bool_decide (precip_type = Some "snow") then
        if Py.lt max_intensity (5 # 2) then "mdi:weather-snowy"
        else "mdi:weather-snowy-heavy"
      else if bool_decide (precip_type = Some "sleet") then "mdi:weather-snowy-rainy"
      else if bool_decide (precip_type = Some "hail") then "mdi:weather-hail"
      else "mdi:weather-rainy"
  end.

(** [is_daylight] as [icon] reads it (lines 312-313). *)
Definition is_daylight_of (data : CoordinatorData) : bool :=
  match currentWeather data with
  | Some current_weather => default true (daylight current_weather)
  | None => true
  end.

(** [icon]. *)
Definition icon (coordinator : Coordinator) : string :=
  match data coordinator with
  | None => "mdi:weather-partly-cloudy"
  | Some data =>
      match forecastNextHour data with
      | None => "mdi:weather-partly-cloudy"
      | Some next_hour_data =>
          let is_daylight := is_daylight_of data in
          let minutes := default [] (minutes next_hour_data) in
          if negb (truthy_list minutes) then
            if is_daylight then "mdi:weather-sunny" else "mdi:weather-night"
          else icon_of_periods (icon_periods minutes) is_daylight
      end
  end.

(** ** The state attributes *)

(** One element of the [minutes] attribute. *)
Record MinuteAttributes : Type := {
  start_time : option string;
  precipitation_intensity : option Q;
  precipitation_chance : option Q;
  precipitation_type : option string
}.

(** The dictionary [extra_state_attributes] returns; a field is [None] when
    the key is not set. *)
Record Attributes : Type := {
  forecast_start : option string;
  forecast_end : option string;
  attr_minutes : option (list MinuteAttributes);
  minute_count : option Z
}.

Definition no_attributes : Attributes :=
  {| forecast_start := None; forecast_end := None;
     attr_minutes := None; minute_count := None |}.

(** The dictionary built for one minute (lines 416-421). *)
Definition minute_attributes (minute : Minute) : MinuteAttributes :=
  {| start_time := startTime minute;
     precipitation_intensity := precipitationIntensity minute;
     precipitation_chance := precipitationChance minute;
     precipitation_type := precipitationType minute |}.

(** [extra_state_attributes]. *)
Definition extra_state_attributes (coordinator : Coordinator) : Attributes :=
  match data coordinator with
  | None => no_attributes
  | Some data =>
      match forecastNextHour data with
      | None => no_attributes
      | Some next_hour_data =>
          let minutes := default [] (minutes next_hour_data) in
          {| forecast_start := forecastStart next_hour_data;
             forecast_end := forecastEnd next_hour_data;
             attr_minutes :=
               if truthy_list minutes then Some (map minute_attributes minutes)
               else None;
             minute_count :=
               if truthy_list minutes then Some (Z.of_nat (length minutes))
               else None |}
      end
  end.

(** ** The design document's vocabulary

    The definitions of this section follow the words of the design
    document, not the code; the theorems compare the two. *)

(** What the loop reads from a sample. *)
Definition intensity_of (m : Minute) : Q := default 0%Q (precipitationIntensity m).
Definition type_of (m : Minute) : string := default "clear" (precipitationType m).

(** The data model's [intensity >= 0]. *)
Definition valid_sample (m : Minute) : Prop := (0 <= intensity_of m)%Q.

(** Sample [k] exists and has [intensity > 0]. *)
Definition wet (minutes : list Minute) (k : nat) : bool :=
  match minutes !! k with
  | Some m => Py.gt (intensity_of m) 0
  | None => false
  end.

(** Samples [s..e] form a maximal contiguous run of [intensity > 0]: all of
    them are wet, and neither the sample before [s] nor the one after [e]
    is (beyond either end of the list no sample is). *)
Definition is_run (minutes : list Minute) (s e : nat) : Prop :=
  s ≤ e ∧
  (∀ k, s ≤ k ≤ e → wet minutes k = true) ∧
  (s = 0 ∨ wet minutes (s - 1) = false) ∧
  wet minutes (e + 1) = false.

(** A run starts at sample [k]. *)
Definition run_starts_at (minutes : list Minute) (k : nat) : bool :=
  wet minutes k && (Nat.eqb k 0 || negb (wet minutes (k - 1))).

(** The number of maximal contiguous runs: one per sample that starts one. *)
Definition count_runs (minutes : list Minute) : nat :=
  length (List.filter (run_starts_at minutes) (seq 0 (length minutes))).

(** [q] is the maximum intensity observed among samples [s..e]. *)
Definition is_peak_of (minutes : list Minute) (s e : nat) (q : Q) : Prop :=
  (∃ k m, s ≤ k ≤ e ∧ minutes !! k = Some m ∧ q = intensity_of m) ∧
  (∀ k m, s ≤ k ≤ e → minutes !! k = Some m → (intensity_of m <= q)%Q).

(** [t] is the last type other than ["clear"] among samples [s..e], or
    ["clear"] when there is none. *)
Definition is_last_type_of (minutes : list Minute) (s e : nat) (t : string) : Prop :=
  (t = "clear" ∧
   ∀ k m, s ≤ k ≤ e → minutes !! k = Some m → type_of m = "clear") ∨
  (t ≠ "clear" ∧
   ∃ k m, s ≤ k ≤ e ∧ minutes !! k = Some m ∧ type_of m = t ∧
     ∀ j m', k < j ≤ e → minutes !! j = Some m' → type_of m' = "clear").

(** Periods come in input order and do not overlap. *)
Definition in_input_order (periods : list Period) : Prop :=
  StronglySorted (λ p q, (end_ p < start q)%Z) periods.

(** The intensity tiers and their thresholds. *)
Inductive Tier : Set := Light | Moderate | Heavy.

Definition tier_of (peakIntensity : Q) : Tier :=
  if Py.lt peakIntensity (5 # 2) then Light
  else if Py.lt peakIntensity 10 then Moderate
  else Heavy.

Definition tier_name (t : Tier) : string :=
  match t with Light => "light" | Moderate => "moderate" | Heavy => "heavy" end.

(** The precipitation types the sensor tells apart; anything else,
    ["clear"] included, is [OtherKind]. *)
Inductive PrecipitationKind : Set := Rain | Snow | Sleet | Hail | OtherKind.

Definition kind_of (dominantType : option string) : PrecipitationKind :=
  if bool_decide (dominantType = Some "rain") then Rain
  else if bool_decide (dominantType = Some "snow") then Snow
  else if bool_decide (dominantType = Some "sleet") then Sleet
  else if bool_decide (dominantType = Some "hail") then Hail
  else OtherKind.

(** The type name of a description key: one of the four named types, and
    ["precipitation"] for anything else. *)
Definition type_name (kind : PrecipitationKind) : string :=
  match kind with
  | Rain => "rain"
  | Snow => "snow"
  | Sleet => "sleet"
  | Hail => "hail"
  | OtherKind => "precipitation"
  end.

(** The four phrasings of a period. *)
Definition phrase_now (desc : string) : string := desc +:+ " now".

Definition phrase_for_next (desc : string) (duration : Z) : string :=
  desc +:+ " for the next " +:+ Py.str duration +:+ " minutes".

Definition phrase_in (desc : string) (start : Z) : string :=
  desc +:+ " in " +:+ Py.str start +:+ " minutes".

Definition phrase_starting_in (desc : string) (start duration : Z) : string :=
  desc +:+ " starting in " +:+ Py.str start +:+ " minutes, lasting " +:+
  Py.str duration +:+ " minutes".

(** The localized description of a period (sections 4.2 and 4.3). *)
Definition description (translations : gmap string string) (p : Period) : string :=
  _translate_state translations
    (_get_precipitation_description_key (type_ p) (max_intensity p)).

Definition duration_of (p : Period) : Z := (end_ p - start p + 1)%Z.

(** [part] is the fragment of period [p]: what the loop over the periods
    appends for it, and, in each of the four cases of section 4.3, the
    phrasing of that case. *)
Definition renders_as (tr : gmap string string) (p : Period) (part : string)
    : Prop :=
  summary_part tr p = Ok part ∧
  (start p = 0%Z ∧ duration_of p = 1%Z →
   part = phrase_now (description tr p)) ∧
  (start p = 0%Z ∧ (duration_of p > 1)%Z →
   part = phrase_for_next (description tr p) (duration_of p)) ∧
  ((start p > 0)%Z ∧ duration_of p = 1%Z →
   part = phrase_in (description tr p) (start p)) ∧
  ((start p > 0)%Z ∧ (duration_of p > 1)%Z →
   part = phrase_starting_in (description tr p) (start p) (duration_of p)).

(** [part] is the fragment of period [p] as the loop over the periods gets
    it: by one call of [_translate_forecast] on a template of the table,
    which gives the substituted text, and the template as it is when the
    substitution fails. *)
Definition rendered_through_template (tr : gmap string string) (p : Period)
    (part : string) : Prop :=
  ∃ key template placeholders,
    templates !! key = Some template ∧
    summary_part tr p = _translate_forecast key placeholders ∧
    summary_part tr p = Ok part ∧
    (∀ e, Py.format template placeholders = Raise e → part = template) ∧
    (∀ s, Py.format template placeholders = Ok s → part = s).

(** The icon rule of section 4.4 for the first period. *)
Definition icon_rule (kind : PrecipitationKind) (tier : Tier) : string :=
  match kind, tier with
  | Rain, Light => "mdi:weather-rainy"
  | Rain, (Moderate | Heavy) => "mdi:weather-pouring"
  | Snow, Light => "mdi:weather-snowy"
  | Snow, (Moderate | Heavy) => "mdi:weather-snowy-heavy"
  | Sleet, _ => "mdi:weather-snowy-rainy"
  | Hail, _ => "mdi:weather-hail"
  | OtherKind, _ => "mdi:weather-rainy"
  end.

(** The next-hour data set of a payload, when it has one. *)
Definition forecast_of (coordinator : Coordinator) : option NextHour :=
  data coordinator ≫= forecastNextHour.

(** The payload with its [minutes] cut to the first 60. *)
Definition truncated (coordinator : Coordinator) : Coordinator :=
  {| last_update_success := last_update_success coordinator;
     data :=
       (λ d, {| currentWeather := currentWeather d;
                forecastNextHour :=
                  (λ nh, {| forecastStart := forecastStart nh;
                            forecastEnd := forecastEnd nh;
                            minutes := take 60 <$> minutes nh |})
                  <$> forecastNextHour d |})
       <$> data coordinator;
     translations := translations coordinator |}.

(** ** The loop invariant *)

(** Period [p] is what the segmenter is to emit for the run [s..e]. *)
Definition period_of_run (minutes : list Minute) (p : Period) (s e : nat) : Prop :=
  start p = Z.of_nat s ∧ end_ p = Z.of_nat e ∧
  is_run minutes s e ∧
  is_peak_of minutes s e (max_intensity p) ∧
  ∃ t, type_ p = Some t ∧ is_last_type_of minutes s e t.

(** The invariant of the segmentation loop after the samples [pre]: the
    periods emitted so far are the runs that ended before the last sample,
    and a period is open exactly when a run reaches the last sample. *)
Record loop_inv (pre : list Minute) (st : LoopState) : Prop := {
  inv_sound : ∀ p, p ∈ precipitation_periods st →
    ∃ s e : nat, period_of_run pre p s e ∧ e + 1 < length pre;
  inv_complete : ∀ s e, is_run pre s e → e + 1 < length pre →
    ∃ p, p ∈ precipitation_periods st ∧
      start p = Z.of_nat s ∧ end_ p = Z.of_nat e;
  inv_sorted : in_input_order (precipitation_periods st);
  inv_count :
    length (precipitation_periods st) +
    (match current_period_start st with Some _ => 1 | None => 0 end) =
    count_runs pre;
  inv_open :
    match current_period_start st with
    | Some sz =>
        ∃ s : nat, sz = Z.of_nat s ∧ is_run pre s (length pre - 1) ∧
          is_peak_of pre s (length pre - 1) (current_period_max_intensity st) ∧
          ∃ t, current_period_type st = Some t ∧
               is_last_type_of pre s (length pre - 1) t
    | None => wet pre (length pre - 1) = false
    end
}.

(** ** Sample payloads *)

Definition sample (intensity : Q) (type : string) : Minute :=
  {| startTime := Some "2023-09-08T22:03:04Z";
     precipitationIntensity := Some intensity;
     precipitationChance := Some (3 # 10);
     precipitationType := Some type |}.

Definition coordinator_with (minutes : list Minute) : Coordinator :=
  {| last_update_success := true;
     data := Some {| currentWeather := Some {| daylight := Some true |};
                     forecastNextHour :=
                       Some {| forecastStart := Some "2023-09-08T22:03:04Z";
                               forecastEnd := Some "2023-09-08T23:03:04Z";
                               minutes := Some minutes |} |};
     translations := ∅ |}.

(** Snow in minutes 2 and 3 of six. *)
Definition snow_shower : list Minute :=
  [sample 0 "snow"; sample 0 "snow"; sample 3 "snow"; sample 3 "snow";
   sample 0 "snow"; sample 0 "snow"].

(** Three periods: rain now, snow in two minutes, hail to the end. *)
Definition three_showers : list Minute :=
  [sample 1 "rain"; sample 0 "clear"; sample 3 "snow"; sample 0 "clear";
   sample 11 "hail"; sample 12 "clear"].

(** One minute of precipitation whose type is reported as ["clear"]. *)
Definition clear_drizzle : list Minute := [sample 1 "clear"].

(** Sixty dry minutes, then rain in minute 60. *)
Definition rain_after_the_hour : list Minute :=
  replicate 60 (sample 0 "clear") ++ [sample 1 "rain"].

(** A payload without the next-hour data set. *)
Definition coordinator_without_forecast : Coordinator :=
  {| last_update_success := true;
     data := Some {| currentWeather := Some {| daylight := Some true |};
                     forecastNextHour := None |};
     translations := ∅ |}.

(** ** Periods on any samples

    What the segmentation loop keeps whatever the intensities are, also
    below zero. *)

(** Sample [k] exists and has [intensity == 0.0]. *)
Definition zero (minutes : list Minute) (k : nat) : bool :=
  match minutes !! k with
  | Some m => Py.eq (intensity_of m) 0
  | None => false
  end.

(** Period [p] lies within the samples: it starts at a sample with
    [intensity > 0], holds no sample with [intensity == 0.0], stops at the
    last sample or right before such a sample, and carries a type and a
    positive maximum, the greatest intensity of its samples. *)
Definition well_formed_in (minutes : list Minute) (p : Period) : Prop :=
  ∃ s e : nat,
    start p = Z.of_nat s ∧ end_ p = Z.of_nat e ∧
    s ≤ e < length minutes ∧
    wet minutes s = true ∧
    (∀ k, s ≤ k ≤ e → zero minutes k = false) ∧
    (e + 1 < length minutes → zero minutes (e + 1) = true) ∧
    is_Some (type_ p) ∧
    (0 < max_intensity p)%Q ∧
    is_peak_of minutes s e (max_intensity p).

(** At least one sample lies between two consecutive periods. *)
Definition separated (periods : list Period) : Prop :=
  StronglySorted (λ p q, (end_ p + 1 < start q)%Z) periods.

(** The invariant of the segmentation loop after the samples [pre], with
    no assumption on them. *)
Record loop_wf (pre : list Minute) (st : LoopState) : Prop := {
  wf_closed : ∀ p, p ∈ precipitation_periods st →
    well_formed_in pre p ∧ (end_ p + 1 < Z.of_nat (length pre))%Z;
  wf_separated : separated (precipitation_periods st);
  wf_count :
    2 * length (precipitation_periods st) +
    (match current_period_start st with Some _ => 1 | None => 0 end) ≤
    length pre;
  wf_wet : ∀ k, wet pre k = true →
    (∃ p, p ∈ precipitation_periods st ∧
          (start p <= Z.of_nat k <= end_ p)%Z) ∨
    (∃ sz, current_period_start st = Some sz ∧ (sz <= Z.of_nat k)%Z);
  wf_open :
    match current_period_start st with
    | Some sz =>
        ∃ s : nat, sz = Z.of_nat s ∧ s < length pre ∧ wet pre s = true ∧
          (∀ k, s ≤ k < length pre → zero pre k = false) ∧
          is_Some (current_period_type st) ∧
          (0 < current_period_max_intensity st)%Q ∧
          is_peak_of pre s (length pre - 1) (current_period_max_intensity st) ∧
          ∀ p, p ∈ precipitation_periods st → (end_ p + 1 < sz)%Z
    | None => True
    end
}.

(** [part] is one of the four phrasings of period [p], the one its start
    and duration call for. *)
Definition is_phrasing (tr : gmap string string) (p : Period) (part : string)
    : Prop :=
  (start p = 0%Z ∧ duration_of p = 1%Z ∧
   part = phrase_now (description tr p)) ∨
  (start p = 0%Z ∧ (duration_of p > 1)%Z ∧
   part = phrase_for_next (description tr p) (duration_of p)) ∨
  ((start p > 0)%Z ∧ duration_of p = 1%Z ∧
   part = phrase_in (description tr p) (start p)) ∨
  ((start p > 0)%Z ∧ (duration_of p > 1)%Z ∧
   part = phrase_starting_in (description tr p) (start p) (duration_of p)).

(** Period [p] moved [n] samples later. *)
Definition shift (n : Z) (p : Period) : Period :=
  {| start := start p + n;
     end_ := end_ p + n;
     type_ := type_ p;
     max_intensity := max_intensity p |}.

(** The loop state [st] of a run over samples that come after [n] others,
    for which the periods [before] were already found. *)
Definition shift_state (before : list Period) (n : Z) (st : LoopState)
    : LoopState :=
  {| precipitation_periods := before ++ map (shift n) (precipitation_periods st);
     current_period_start := (λ s, (s + n)%Z) <$> current_period_start st;
     current_period_type := current_period_type st;
     current_period_max_intensity := current_period_max_intensity st |}.

(** When nothing is open the loop variables are back at their initial
    values. *)
Definition reset_when_closed (st : LoopState) : Prop :=
  current_period_start st = None →
  current_period_type st = None ∧ current_period_max_intensity st = 0%Q.

(** ** Text without translations *)

(** The key [_translate_state] looks up for the state [state_key]. *)
Definition state_translation_key (state_key : string) : string :=
  "component." +:+ DOMAIN +:+
  ".entity.sensor.next_hour_forecast.state." +:+ state_key.

Definition tier_title (t : Tier) : string :=
  match t with Light => "Light" | Moderate => "Moderate" | Heavy => "Heavy" end.

Definition kind_title (kind : PrecipitationKind) : string :=
  match kind with
  | Rain => "Rain"
  | Snow => "Snow"
  | Sleet => "Sleet"
  | Hail => "Hail"
  | OtherKind => "Precipitation"
  end.

(** No brace occurs in [s]. *)
Fixpoint brace_free (s : string) : bool :=
  match s with
  | EmptyString => true
  | String c rest =>
      negb (Ascii.eqb c "{") && negb (Ascii.eqb c "}") && brace_free rest
  end.

(** * Proofs *)

(** ** Numbers *)

Lemma gt_true (a b : Q) : Py.gt a b = true ↔ (b < a)%Q.
Proof.
  unfold Py.gt. rewrite Qgt_alt.
  destruct (a ?= b)%Q; split; congruence.
Qed.

Lemma gt_false (a b : Q) : Py.gt a b = false ↔ (a <= b)%Q.
Proof.
  unfold Py.gt. rewrite Qle_alt.
  destruct (a ?= b)%Q; split; congruence.
Qed.

Lemma lt_true (a b : Q) : Py.lt a b = true ↔ (a < b)%Q.
Proof.
  unfold Py.lt. rewrite Qlt_alt.
  destruct (a ?= b)%Q; split; congruence.
Qed.

Lemma eq_true (a b : Q) : Py.eq a b = true ↔ (a == b)%Q.
Proof.
  unfold Py.eq. rewrite Qeq_alt.
  destruct (a ?= b)%Q; split; congruence.
Qed.

Lemma dry_is_zero (m : Minute) :
  valid_sample m → Py.gt (intensity_of m) 0 = false → Py.eq (intensity_of m) 0 = true.
Proof.
  unfold valid_sample. rewrite gt_false, eq_true. intros H0 H1.
  by apply Qle_antisym.
Qed.

Lemma max_upper_l (a b : Q) : (a <= Py.max a b)%Q.
Proof.
  unfold Py.max. destruct (Py.gt b a) eqn:E.
  - apply gt_true in E. by apply Qlt_le_weak.
  - apply Qle_refl.
Qed.

Lemma max_upper_r (a b : Q) : (b <= Py.max a b)%Q.
Proof.
  unfold Py.max. destruct (Py.gt b a) eqn:E.
  - apply Qle_refl.
  - by apply gt_false in E.
Qed.

Lemma max_is_either (a b : Q) : Py.max a b = a ∨ Py.max a b = b.
Proof. unfold Py.max. destruct (Py.gt b a); auto. Qed.

(** ** Samples and runs *)

Lemma wet_lt (l : list Minute) (k : nat) : wet l k = true → k < length l.
Proof.
  unfold wet. destruct (l !! k) eqn:E; [|done].
  intros _. by eapply lookup_lt_Some.
Qed.

Lemma wet_ge (l : list Minute) (k : nat) : length l ≤ k → wet l k = false.
Proof. intros H. unfold wet. by rewrite lookup_ge_None_2. Qed.

Lemma wet_iff (l : list Minute) (k : nat) :
  wet l k = true ↔ ∃ m, l !! k = Some m ∧ (0 < intensity_of m)%Q.
Proof.
  unfold wet. destruct (l !! k) as [m|].
  - rewrite gt_true. split; [eauto|]. by intros (? & [= <-] & ?).
  - split; [done|]. by intros (? & ? & _).
Qed.

Lemma is_run_nonempty (l : list Minute) (s e : nat) :
  is_run l s e → s < length l ∧ e < length l ∧ wet l e = true.
Proof.
  intros (Hse & Hw & _).
  assert (wet l e = true) by (apply Hw; lia).
  assert (wet l s = true) by (apply Hw; lia).
  auto using wet_lt.
Qed.

Lemma is_run_last (l : list Minute) (s e : nat) :
  is_run l s e → e + 1 < length l ∨ e = length l - 1.
Proof.
  intros (Hse & Hw & _). assert (e < length l) by (apply wet_lt, Hw; lia). lia.
Qed.

Lemma is_run_start_unique (l : list Minute) (s s' e : nat) :
  is_run l s e → is_run l s' e → s = s'.
Proof.
  intros (Hse & Hw & Hs & _) (Hse' & Hw' & Hs' & _).
  destruct (decide (s = s')) as [|Hne]; [done|exfalso].
  destruct (decide (s < s')).
  - destruct Hs' as [->|Hd]; [lia|].
    rewrite Hw in Hd by lia. done.
  - destruct Hs as [->|Hd]; [lia|].
    rewrite Hw' in Hd by lia. done.
Qed.

Lemma in_input_order_snoc (periods : list Period) (p : Period) :
  in_input_order periods →
  (∀ q, q ∈ periods → (end_ q < start p)%Z) →
  in_input_order (periods ++ [p]).
Proof.
  unfold in_input_order. induction 1 as [|q periods Hsorted IH Hq]; intros Hp; simpl.
  - repeat constructor.
  - constructor.
    + apply IH. intros r Hr. apply Hp. by right.
    + apply Forall_app. split; [done|].
      constructor; [|done]. apply Hp. by left.
Qed.

(** ** One more sample

    How the vocabulary of runs changes when the sample [m] is appended to
    the samples [pre] read so far. *)

Section snoc.
Context (pre : list Minute) (m : Minute).

Lemma wet_snoc_lt (k : nat) :
  k < length pre → wet (pre ++ [m]) k = wet pre k.
Proof. intros H. unfold wet. by rewrite lookup_app_l. Qed.

Lemma wet_snoc_last :
  wet (pre ++ [m]) (length pre) = Py.gt (intensity_of m) 0.
Proof. unfold wet. by rewrite list_lookup_middle. Qed.

Lemma is_run_snoc_closed (s e : nat) :
  e + 1 < length pre → is_run (pre ++ [m]) s e ↔ is_run pre s e.
Proof.
  intros He. unfold is_run.
  rewrite (wet_snoc_lt (e + 1)) by lia.
  split; intros (Hse & Hw & Hs & Hd); (split; [done|split; [|split; [|done]]]).
  - intros k Hk. rewrite <- wet_snoc_lt by lia. auto.
  - destruct Hs as [->|Hs]; [by left|right].
    by rewrite <- wet_snoc_lt by lia.
  - intros k Hk. rewrite wet_snoc_lt by lia. auto.
  - destruct Hs as [->|Hs]; [by left|right].
    by rewrite wet_snoc_lt by lia.
Qed.

Lemma is_run_snoc_open :
  wet pre (length pre - 1) = false → Py.gt (intensity_of m) 0 = true →
  is_run (pre ++ [m]) (length pre) (length pre).
Proof.
  intros Hd Hm. split; [done|split; [|split]].
  - intros k Hk. assert (k = length pre) as -> by lia. by rewrite wet_snoc_last.
  - destruct (decide (length pre = 0)) as [E|E]; [by left|right].
    by rewrite wet_snoc_lt by lia.
  - apply wet_ge. rewrite length_app. simpl. lia.
Qed.

Lemma is_run_snoc_extend (s : nat) :
  is_run pre s (length pre - 1) → Py.gt (intensity_of m) 0 = true →
  is_run (pre ++ [m]) s (length pre).
Proof.
  intros (Hse & Hw & Hs & _) Hm.
  assert (s < length pre) by (apply wet_lt, Hw; lia).
  split; [lia|split; [|split]].
  - intros k Hk. destruct (decide (k = length pre)) as [->|].
    + by rewrite wet_snoc_last.
    + rewrite wet_snoc_lt by lia. apply Hw. lia.
  - destruct Hs as [->|Hs]; [by left|right].
    by rewrite wet_snoc_lt by lia.
  - apply wet_ge. rewrite length_app. simpl. lia.
Qed.

Lemma is_run_snoc_close (s : nat) :
  is_run pre s (length pre - 1) → Py.gt (intensity_of m) 0 = false →
  is_run (pre ++ [m]) s (length pre - 1).
Proof.
  intros (Hse & Hw & Hs & _) Hm.
  assert (s < length pre) by (apply wet_lt, Hw; lia).
  split; [lia|split; [|split]].
  - intros k Hk. rewrite wet_snoc_lt by lia. auto.
  - destruct Hs as [->|Hs]; [by left|right].
    by rewrite wet_snoc_lt by lia.
  - replace (length pre - 1 + 1) with (length pre) by lia.
    by rewrite wet_snoc_last.
Qed.

Lemma is_run_snoc_before_last (s e : nat) :
  is_run (pre ++ [m]) s e → e + 1 = length pre →
  is_run pre s (length pre - 1) ∧ Py.gt (intensity_of m) 0 = false.
Proof.
  intros (Hse & Hw & Hs & Hd) He. split.
  - replace (length pre - 1) with e by lia.
    split; [done|split; [|split]].
    + intros k Hk. rewrite <- wet_snoc_lt by lia. auto.
    + destruct Hs as [->|Hs]; [by left|right].
      by rewrite <- wet_snoc_lt by lia.
    + apply wet_ge. lia.
  - rewrite He, wet_snoc_last in Hd. done.
Qed.

Lemma is_peak_of_snoc (s e : nat) (q : Q) :
  e < length pre → is_peak_of pre s e q → is_peak_of (pre ++ [m]) s e q.
Proof.
  intros He [(k & x & Hk & Hx & Hq) Hub]. split.
  - exists k, x. rewrite lookup_app_l by lia. done.
  - intros j y Hj. rewrite lookup_app_l by lia. by apply Hub.
Qed.

Lemma is_peak_of_snoc_open :
  is_peak_of (pre ++ [m]) (length pre) (length pre) (intensity_of m).
Proof.
  split.
  - exists (length pre), m. by rewrite list_lookup_middle.
  - intros k x Hk. assert (k = length pre) as -> by lia.
    rewrite list_lookup_middle by done. intros [= <-]. apply Qle_refl.
Qed.

Lemma is_peak_of_snoc_extend (s : nat) (q : Q) :
  s < length pre → is_peak_of pre s (length pre - 1) q →
  is_peak_of (pre ++ [m]) s (length pre) (Py.max q (intensity_of m)).
Proof.
  intros Hs [(k & x & Hk & Hx & Hq) Hub]. split.
  - destruct (max_is_either q (intensity_of m)) as [->| ->].
    + exists k, x. rewrite lookup_app_l by lia. repeat split; try done; lia.
    + exists (length pre), m. rewrite list_lookup_middle by done.
      repeat split; try done; lia.
  - intros j y Hj. destruct (decide (j = length pre)) as [->|].
    + rewrite list_lookup_middle by done. intros [= <-]. apply max_upper_r.
    + rewrite lookup_app_l by lia. intros Hy.
      eapply Qle_trans; [apply (Hub j y); [lia|done]|apply max_upper_l].
Qed.

Lemma is_last_type_of_snoc (s e : nat) (t : string) :
  e < length pre → is_last_type_of pre s e t → is_last_type_of (pre ++ [m]) s e t.
Proof.
  intros He [[Ht Hall]|(Ht & k & x & Hk & Hx & Hxt & Hafter)]; [left|right].
  - split; [done|]. intros j y Hj. rewrite lookup_app_l by lia. by apply Hall.
  - split; [done|]. exists k, x. rewrite lookup_app_l by lia.
    repeat split; try done; try lia.
    intros j y Hj. rewrite lookup_app_l by lia. by apply Hafter.
Qed.

Lemma is_last_type_of_snoc_open :
  is_last_type_of (pre ++ [m]) (length pre) (length pre) (type_of m).
Proof.
  destruct (decide (type_of m = "clear")) as [Hc|Hc]; [left|right].
  - split; [done|]. intros k x Hk. assert (k = length pre) as -> by lia.
    rewrite list_lookup_middle by done. by intros [= <-].
  - split; [done|]. exists (length pre), m.
    rewrite list_lookup_middle by done. repeat split; try done. lia.
Qed.

Lemma is_last_type_of_snoc_extend (s : nat)
    (t : string) :
  s < length pre → is_last_type_of pre s (length pre - 1) t →
  is_last_type_of (pre ++ [m]) s (length pre)
    (if negb (String.eqb (type_of m) "clear") then type_of m else t).
Proof.
  intros Hs Ht. destruct (String.eqb_spec (type_of m) "clear") as [Hc|Hc]; simpl.
  - destruct Ht as [[Ht Hall]|(Ht & k & x & Hk & Hx & Hxt & Hafter)]; [left|right].
    + split; [done|]. intros j y Hj.
      destruct (decide (j = length pre)) as [->|].
      * rewrite list_lookup_middle by done. by intros [= <-].
      * rewrite lookup_app_l by lia. apply Hall. lia.
    + split; [done|]. exists k, x. rewrite lookup_app_l by lia.
      repeat split; try done; try lia.
      intros j y Hj. destruct (decide (j = length pre)) as [->|].
      * rewrite list_lookup_middle by done. by intros [= <-].
      * rewrite lookup_app_l by lia. apply Hafter. lia.
  - right. split; [done|]. exists (length pre), m.
    rewrite list_lookup_middle by done. repeat split; try done; try lia.
Qed.

Lemma period_of_run_snoc (p : Period) (s e : nat) :
  e + 1 < length pre → period_of_run pre p s e → period_of_run (pre ++ [m]) p s e.
Proof.
  intros He (Hs & Hend & Hrun & Hpeak & t & Ht & Hlast).
  unfold period_of_run. split_and!; try done.
  - by apply is_run_snoc_closed.
  - apply is_peak_of_snoc; [lia|done].
  - exists t. split; [done|]. apply is_last_type_of_snoc; [lia|done].
Qed.

Lemma run_starts_at_snoc_lt (k : nat) :
  k < length pre → run_starts_at (pre ++ [m]) k = run_starts_at pre k.
Proof.
  intros Hk. unfold run_starts_at.
  by rewrite !wet_snoc_lt by lia.
Qed.

Lemma count_runs_snoc :
  count_runs (pre ++ [m]) =
  count_runs pre + (if run_starts_at (pre ++ [m]) (length pre) then 1 else 0).
Proof.
  unfold count_runs. rewrite length_app. simpl length.
  replace (length pre + 1) with (S (length pre)) by lia.
  rewrite seq_S, List.filter_app, length_app. simpl.
  f_equal.
  - f_equal. apply List.filter_ext_in. intros k Hk.
    apply in_seq in Hk. apply run_starts_at_snoc_lt. lia.
  - by destruct (run_starts_at (pre ++ [m]) (length pre)).
Qed.

End snoc.

(** ** The segmentation loop *)

Lemma enumerate_from_snoc {A : Type} (i : Z) (l : list A) (x : A) :
  enumerate_from i (l ++ [x]) =
  enumerate_from i l ++ [((i + Z.of_nat (length l))%Z, x)].
Proof.
  revert i. induction l as [|y l IH]; intros i; cbn [app enumerate_from length].
  - by rewrite Z.add_0_r.
  - rewrite IH, Nat2Z.inj_succ.
    by replace (i + 1 + Z.of_nat (length l))%Z
      with (i + Z.succ (Z.of_nat (length l)))%Z by lia.
Qed.

Lemma loop_inv_init : loop_inv [] loop_init.
Proof.
  split; simpl.
  - intros p Hp. by apply elem_of_nil in Hp.
  - intros s e _ He. simpl in He. lia.
  - constructor.
  - done.
  - done.
Qed.

Section step.
Context (pre : list Minute) (m : Minute).

Lemma summary_loop_snoc :
  fold_left summary_loop_body (enumerate (pre ++ [m])) loop_init =
  summary_loop_body
    (fold_left summary_loop_body (enumerate pre) loop_init)
    (Z.of_nat (length pre), m).
Proof.
  unfold enumerate. by rewrite enumerate_from_snoc, fold_left_app.
Qed.

Lemma loop_inv_step (st : LoopState) :
  valid_sample m → loop_inv pre st →
  loop_inv (pre ++ [m]) (summary_loop_body st (Z.of_nat (length pre), m)).
Proof.
  intros Hm [Hsound Hcomplete Hsorted Hcount Hopen].
  assert (Hlen : length (pre ++ [m]) = length pre + 1)
    by (rewrite length_app; simpl; lia).
  assert (Hkeep : ∀ p, p ∈ precipitation_periods st →
            ∃ s e : nat, period_of_run (pre ++ [m]) p s e ∧
                         e + 1 < length (pre ++ [m])).
  { intros p Hp. destruct (Hsound p Hp) as (s & e & Hrun & He).
    exists s, e. split; [by apply period_of_run_snoc|lia]. }
  unfold summary_loop_body. fold (intensity_of m). fold (type_of m).
  destruct (current_period_start st) as [sz|] eqn:Hst;
    destruct (Py.gt (intensity_of m) 0) eqn:Hgt;
    [|rewrite (dry_is_zero m Hm Hgt)| |].
  - (* the open period continues *)
    destruct Hopen as (s0 & -> & Hrun0 & Hpeak0 & t0 & Ht0 & Hlast0).
    destruct (is_run_nonempty _ _ _ Hrun0) as (Hs0 & _ & Hwet0).
    split; cbn [precipitation_periods current_period_start
                current_period_type current_period_max_intensity].
    + done.
    + intros s e Hrun He. rewrite Hlen in He.
      destruct (decide (e + 1 = length pre)) as [Heq|Hne].
      * destruct (is_run_snoc_before_last _ _ _ _ Hrun Heq). congruence.
      * apply Hcomplete; [|lia]. apply (is_run_snoc_closed pre m); [lia|done].
    + done.
    + rewrite count_runs_snoc, <- Hcount.
      unfold run_starts_at. rewrite wet_snoc_last, Hgt.
      rewrite wet_snoc_lt by lia. rewrite Hwet0.
      destruct (Nat.eqb_spec (length pre) 0) as [E|E]; [lia|]. simpl. lia.
    + exists s0. rewrite Hlen. replace (length pre + 1 - 1) with (length pre) by lia.
      split; [done|]. split; [by apply is_run_snoc_extend|].
      split; [by apply is_peak_of_snoc_extend|].
      rewrite Ht0. eexists. split; [|by apply is_last_type_of_snoc_extend].
      by destruct (negb _).
  - (* the open period is closed *)
    destruct Hopen as (s0 & -> & Hrun0 & Hpeak0 & t0 & Ht0 & Hlast0).
    destruct (is_run_nonempty _ _ _ Hrun0) as (Hs0 & _ & Hwet0).
    assert (Hnew : period_of_run (pre ++ [m])
              {| start := Z.of_nat s0; end_ := Z.of_nat (length pre) - 1;
                 type_ := current_period_type st;
                 max_intensity := current_period_max_intensity st |}
              s0 (length pre - 1)).
    { unfold period_of_run. split_and!; cbn [start end_ type_ max_intensity].
      - done.
      - lia.
      - by apply is_run_snoc_close.
      - apply is_peak_of_snoc; [lia|done].
      - exists t0. split; [done|]. apply is_last_type_of_snoc; [lia|done]. }
    split; cbn [precipitation_periods current_period_start
                current_period_type current_period_max_intensity].
    + intros p [Hp|Hp]%elem_of_app; [by apply Hkeep|].
      apply list_elem_of_singleton in Hp as ->.
      exists s0, (length pre - 1). split; [done|lia].
    + intros s e Hrun He. rewrite Hlen in He.
      destruct (decide (e + 1 = length pre)) as [Heq|Hne].
      * destruct (is_run_snoc_before_last _ _ _ _ Hrun Heq) as [Hrun' _].
        assert (s = s0) as -> by (eapply is_run_start_unique; eauto).
        eexists. split; [apply elem_of_app; right; by apply list_elem_of_singleton|].
        cbn [start end_]. lia.
      * destruct (Hcomplete s e) as (p & Hp & Hps & Hpe); [|lia|].
        { apply (is_run_snoc_closed pre m); [lia|done]. }
        exists p. split; [|done]. apply elem_of_app. by left.
    + apply in_input_order_snoc; [done|]. intros q Hq. cbn [start].
      destruct (Hsound q Hq) as (s & e & (Hqs & Hqe & Hqrun & _) & He).
      destruct Hqrun as (_ & _ & _ & Hdry).
      destruct Hrun0 as (_ & Hw0 & _).
      destruct (decide (s0 ≤ e + 1)); [|lia].
      rewrite Hw0 in Hdry by lia. done.
    + rewrite count_runs_snoc, <- Hcount, length_app.
      unfold run_starts_at. rewrite wet_snoc_last, Hgt. simpl. lia.
    + rewrite Hlen. replace (length pre + 1 - 1) with (length pre) by lia.
      by rewrite wet_snoc_last.
  - (* a period opens *)
    split; cbn [precipitation_periods current_period_start
                current_period_type current_period_max_intensity].
    + done.
    + intros s e Hrun He. rewrite Hlen in He.
      destruct (decide (e + 1 = length pre)) as [Heq|Hne].
      * destruct (is_run_snoc_before_last _ _ _ _ Hrun Heq). congruence.
      * apply Hcomplete; [|lia]. apply (is_run_snoc_closed pre m); [lia|done].
    + done.
    + rewrite count_runs_snoc, <- Hcount.
      unfold run_starts_at. rewrite wet_snoc_last, Hgt.
      destruct (Nat.eqb_spec (length pre) 0) as [E|E]; [simpl; lia|].
      rewrite wet_snoc_lt by lia. rewrite Hopen. simpl. lia.
    + exists (length pre). rewrite Hlen.
      replace (length pre + 1 - 1) with (length pre) by lia.
      split; [done|]. split; [by apply is_run_snoc_open|].
      split; [apply is_peak_of_snoc_open|].
      exists (type_of m). split; [done|]. apply is_last_type_of_snoc_open.
  - (* nothing is open and the sample is dry *)
    split; rewrite ?Hst.
    + done.
    + intros s e Hrun He. rewrite Hlen in He.
      destruct (decide (e + 1 = length pre)) as [Heq|Hne].
      * destruct (is_run_snoc_before_last _ _ _ _ Hrun Heq) as [Hrun' _].
        destruct (is_run_nonempty _ _ _ Hrun') as (_ & _ & Hwet). congruence.
      * apply Hcomplete; [|lia]. apply (is_run_snoc_closed pre m); [lia|done].
    + done.
    + rewrite count_runs_snoc, <- Hcount.
      unfold run_starts_at. rewrite wet_snoc_last, Hgt. simpl. lia.
    + rewrite Hlen. replace (length pre + 1 - 1) with (length pre) by lia.
      by rewrite wet_snoc_last.
Qed.

End step.

Lemma loop_inv_holds (minutes : list Minute) :
  Forall valid_sample minutes →
  loop_inv minutes (fold_left summary_loop_body (enumerate minutes) loop_init).
Proof.
  induction minutes as [|m pre IH] using rev_ind; intros Hvalid.
  - apply loop_inv_init.
  - apply Forall_app in Hvalid as [Hpre Hm].
    rewrite summary_loop_snoc. apply loop_inv_step; [|by apply IH].
    by inversion Hm.
Qed.

(** What the segmenter returns on valid samples: one period per run, every
    run, in input order. *)
Lemma summary_periods_runs (minutes : list Minute) :
  Forall valid_sample minutes →
  (∀ p, p ∈ summary_periods minutes → ∃ s e : nat, period_of_run minutes p s e) ∧
  (∀ s e, is_run minutes s e →
     ∃ p, p ∈ summary_periods minutes ∧
       start p = Z.of_nat s ∧ end_ p = Z.of_nat e) ∧
  in_input_order (summary_periods minutes) ∧
  length (summary_periods minutes) = count_runs minutes.
Proof.
  intros Hvalid.
  destruct (loop_inv_holds minutes Hvalid)
    as [Hsound Hcomplete Hsorted Hcount Hopen].
  unfold summary_periods, summary_loop_end.
  destruct (current_period_start _) as [sz|] eqn:Hst.
  - destruct Hopen as (s0 & -> & Hrun0 & Hpeak0 & t0 & Ht0 & Hlast0).
    destruct (is_run_nonempty _ _ _ Hrun0) as (Hs0 & _ & _).
    split_and!.
    + intros p [Hp|Hp]%elem_of_app.
      * destruct (Hsound p Hp) as (s & e & Hrun & _). by exists s, e.
      * apply list_elem_of_singleton in Hp as ->.
        exists s0, (length minutes - 1). unfold period_of_run.
        split_and!; cbn [start end_ type_ max_intensity]; try done; [lia|].
        by exists t0.
    + intros s e Hrun. destruct (is_run_last _ _ _ Hrun) as [He| ->].
      * destruct (Hcomplete s e Hrun He) as (p & Hp & Hpse).
        exists p. split; [|done]. apply elem_of_app. by left.
      * assert (s = s0) as -> by (eapply is_run_start_unique; eauto).
        eexists. split; [apply elem_of_app; right; by apply list_elem_of_singleton|].
        cbn [start end_]. lia.
    + apply in_input_order_snoc; [done|]. intros q Hq. cbn [start].
      destruct (Hsound q Hq) as (s & e & (Hqs & Hqe & Hqrun & _) & He).
      destruct Hqrun as (_ & _ & _ & Hdry).
      destruct Hrun0 as (_ & Hw0 & _).
      destruct (decide (s0 ≤ e + 1)); [|lia].
      rewrite Hw0 in Hdry by lia. done.
    + rewrite length_app. simpl. lia.
  - split_and!.
    + intros p Hp. destruct (Hsound p Hp) as (s & e & Hrun & _). by exists s, e.
    + intros s e Hrun. destruct (is_run_last _ _ _ Hrun) as [He| ->].
      * by apply Hcomplete.
      * destruct (is_run_nonempty _ _ _ Hrun) as (_ & _ & Hwet). congruence.
    + done.
    + lia.
Qed.

(** ** Text *)

Lemma append_assoc (a b c : string) : (a +:+ b) +:+ c = a +:+ (b +:+ c).
Proof.
  induction a as [|x a IH]; [done|].
  change (String x ((a +:+ b) +:+ c) = String x (a +:+ (b +:+ c))).
  by rewrite IH.
Qed.

Lemma get_field_named (kwargs : gmap string string) (name : string) :
  Py.all_digits name = false →
  Py.get_field kwargs name =
  match kwargs !! name with Some v => Ok v | None => Raise KeyError end.
Proof. intros H. unfold Py.get_field. by rewrite H. Qed.

(** One step of [format] on a concrete template: read up to the next
    field and look its name up. *)
Ltac format_step :=
  cbn [Py.format_from bind];
  try match goal with
      | |- context [Py.get_field ?kwargs ?name] =>
          let name' := eval vm_compute in name in
          change (Py.get_field kwargs name) with (Py.get_field kwargs name');
          rewrite (get_field_named kwargs name') by reflexivity
      end.

Ltac format_done := rewrite ?append_assoc; reflexivity.

Lemma format_now (kwargs : gmap string string) :
  Py.format "{precipitation} now" kwargs =
  match kwargs !! "precipitation" with
  | Some d => Ok (phrase_now d)
  | None => Raise KeyError
  end.
Proof.
  unfold Py.format, phrase_now. format_step.
  destruct (kwargs !! "precipitation") as [d|]; [|done].
  format_step. format_done.
Qed.

Lemma format_for_next_minutes (kwargs : gmap string string) :
  Py.format "{precipitation} for the next {duration} minutes" kwargs =
  match kwargs !! "precipitation", kwargs !! "duration" with
  | Some d, Some n => Ok (d +:+ " for the next " +:+ n +:+ " minutes")
  | _, _ => Raise KeyError
  end.
Proof.
  unfold Py.format. format_step.
  destruct (kwargs !! "precipitation") as [d|]; [|done]. format_step.
  destruct (kwargs !! "duration") as [n|]; [|done]. format_step.
  format_done.
Qed.

Lemma format_in_minutes (kwargs : gmap string string) :
  Py.format "{precipitation} in {minutes} minutes" kwargs =
  match kwargs !! "precipitation", kwargs !! "minutes" with
  | Some d, Some n => Ok (d +:+ " in " +:+ n +:+ " minutes")
  | _, _ => Raise KeyError
  end.
Proof.
  unfold Py.format. format_step.
  destruct (kwargs !! "precipitation") as [d|]; [|done]. format_step.
  destruct (kwargs !! "minutes") as [n|]; [|done]. format_step.
  format_done.
Qed.

Lemma format_starting_in_minutes_lasting (kwargs : gmap string string) :
  Py.format
    "{precipitation} starting in {start_minutes} minutes, lasting {duration} minutes"
    kwargs =
  match kwargs !! "precipitation", kwargs !! "start_minutes",
        kwargs !! "duration" with
  | Some d, Some n, Some k =>
      Ok (d +:+ " starting in " +:+ n +:+ " minutes, lasting " +:+ k +:+ " minutes")
  | _, _, _ => Raise KeyError
  end.
Proof.
  unfold Py.format. format_step.
  destruct (kwargs !! "precipitation") as [d|]; [|done]. format_step.
  destruct (kwargs !! "start_minutes") as [n|]; [|done]. format_step.
  destruct (kwargs !! "duration") as [k|]; [|done]. format_step.
  format_done.
Qed.

(** The keys of [templates]. *)
Lemma templates_lookup (key template : string) :
  templates !! key = Some template →
  (key = "now" ∧ template = "{precipitation} now") ∨
  (key = "for_next_minutes" ∧
   template = "{precipitation} for the next {duration} minutes") ∨
  (key = "in_minutes" ∧ template = "{precipitation} in {minutes} minutes") ∨
  (key = "starting_in_minutes_lasting" ∧
   template =
     "{precipitation} starting in {start_minutes} minutes, lasting {duration} minutes").
Proof.
  unfold templates. rewrite !lookup_insert_Some, lookup_empty.
  intros [[<- <-]|[_ [[<- <-]|[_ [[<- <-]|[_ [[<- <-]|[_ [=]]]]]]]]]; eauto 10.
Qed.

(** On a template of the table, [format] returns or raises [KeyError]. *)
Lemma format_template (key template : string) (kwargs : gmap string string) :
  templates !! key = Some template →
  (∃ s, Py.format template kwargs = Ok s) ∨
  Py.format template kwargs = Raise KeyError.
Proof.
  intros [[-> ->]|[[-> ->]|[[-> ->]|[-> ->]]]]%templates_lookup.
  - rewrite format_now. destruct (kwargs !! _); eauto.
  - rewrite format_for_next_minutes. repeat destruct (kwargs !! _); eauto.
  - rewrite format_in_minutes. repeat destruct (kwargs !! _); eauto.
  - rewrite format_starting_in_minutes_lasting.
    repeat destruct (kwargs !! _); eauto.
Qed.

Lemma _translate_forecast_template (key template : string)
    (kwargs : gmap string string) :
  templates !! key = Some template →
  _translate_forecast key kwargs =
  match Py.format template kwargs with
  | Ok s => Ok s
  | Raise _ => Ok template
  end.
Proof.
  intros Hkey. unfold _translate_forecast. rewrite Hkey. simpl.
  destruct (format_template key template kwargs Hkey) as [[s ->]| ->]; done.
Qed.

(** ** The fragments of the summary *)

Lemma summary_part_now (tr : gmap string string) (p : Period) :
  start p = 0%Z → duration_of p = 1%Z →
  summary_part tr p = Ok (phrase_now (description tr p)).
Proof.
  unfold duration_of, summary_part. intros -> ->. cbn [Z.eqb Pos.eqb].
  rewrite (_translate_forecast_template "now" "{precipitation} now") by done.
  by rewrite format_now, lookup_singleton_eq.
Qed.

Lemma summary_part_for_next (tr : gmap string string) (p : Period) :
  start p = 0%Z → duration_of p ≠ 1%Z →
  summary_part tr p = Ok (phrase_for_next (description tr p) (duration_of p)).
Proof.
  unfold duration_of, summary_part. intros -> H%Z.eqb_neq. rewrite H. cbn [Z.eqb].
  rewrite (_translate_forecast_template "for_next_minutes"
             "{precipitation} for the next {duration} minutes") by done.
  rewrite format_for_next_minutes.
  by rewrite lookup_insert_eq, lookup_insert_ne, lookup_singleton_eq.
Qed.

Lemma summary_part_in (tr : gmap string string) (p : Period) :
  start p ≠ 0%Z → duration_of p = 1%Z →
  summary_part tr p = Ok (phrase_in (description tr p) (start p)).
Proof.
  unfold duration_of, summary_part. intros H%Z.eqb_neq ->. rewrite H. cbn [Z.eqb Pos.eqb].
  rewrite (_translate_forecast_template "in_minutes"
             "{precipitation} in {minutes} minutes") by done.
  rewrite format_in_minutes.
  by rewrite lookup_insert_eq, lookup_insert_ne, lookup_singleton_eq.
Qed.

Lemma summary_part_starting_in (tr : gmap string string) (p : Period) :
  start p ≠ 0%Z → duration_of p ≠ 1%Z →
  summary_part tr p =
  Ok (phrase_starting_in (description tr p) (start p) (duration_of p)).
Proof.
  unfold duration_of, summary_part. intros H%Z.eqb_neq H'%Z.eqb_neq. rewrite H, H'.
  rewrite (_translate_forecast_template "starting_in_minutes_lasting"
             "{precipitation} starting in {start_minutes} minutes, lasting {duration} minutes")
    by done.
  rewrite format_starting_in_minutes_lasting.
  rewrite lookup_insert_eq, lookup_insert_ne by done.
  rewrite lookup_insert_eq, lookup_insert_ne by done.
  rewrite lookup_insert_ne by done.
  by rewrite lookup_singleton_eq.
Qed.

(** ** The description key *)

Lemma description_key_eq (precip_type : option string) (max_intensity : Q) :
  _get_precipitation_description_key precip_type max_intensity =
  tier_name (tier_of max_intensity) +:+ "_" +:+ type_name (kind_of precip_type).
Proof.
  unfold _get_precipitation_description_key, tier_of, kind_of.
  repeat case_bool_decide; by repeat destruct (Py.lt _ _).
Qed.

Lemma type_name_not_clear (kind : PrecipitationKind) : type_name kind ≠ "clear".
Proof. by destruct kind. Qed.

(** * The scenarios of the design document *)

Example single_sample_is_rendered_now :
  summary_periods [sample (1 # 2) "rain"] =
    [{| start := 0; end_ := 0; type_ := Some "rain"; max_intensity := 1 # 2 |}] ∧
  _generate_forecast_summary ∅ [sample (1 # 2) "rain"] = Ok "Light Rain now".
Proof. split; by vm_compute. Qed.

Example six_wet_minutes :
  summary_periods (replicate 6 (sample (1 # 2) "rain")) =
    [{| start := 0; end_ := 5; type_ := Some "rain"; max_intensity := 1 # 2 |}] ∧
  native_value (coordinator_with (replicate 6 (sample (1 # 2) "rain"))) =
    Ok (Some "Light Rain for the next 6 minutes") ∧
  minute_count
    (extra_state_attributes
       (coordinator_with (replicate 6 (sample (1 # 2) "rain")))) = Some 6%Z.
Proof. split_and!; by vm_compute. Qed.

Example snow_shower_in_two_minutes :
  summary_periods snow_shower =
    [{| start := 2; end_ := 3; type_ := Some "snow"; max_intensity := 3 |}] ∧
  native_value (coordinator_with snow_shower) =
    Ok (Some "Moderate Snow starting in 2 minutes, lasting 2 minutes") ∧
  icon (coordinator_with snow_shower) = "mdi:weather-snowy-heavy".
Proof. split_and!; by vm_compute. Qed.

Example three_showers_are_joined :
  native_value (coordinator_with three_showers) =
  Ok (Some ("Light Rain now; Moderate Snow in 2 minutes; " +:+
            "Heavy Hail starting in 4 minutes, lasting 2 minutes")).
Proof. by vm_compute. Qed.

Example dry_hour_has_no_period :
  summary_periods (replicate 60 (sample 0 "clear")) = [] ∧
  native_value (coordinator_with (replicate 60 (sample 0 "clear"))) =
    Ok (Some "No Precipitation") ∧
  icon (coordinator_with (replicate 60 (sample 0 "clear"))) = "mdi:weather-sunny".
Proof. split_and!; by vm_compute. Qed.

(** Why the theorems on the segmenter ask for [valid_sample]: the loop
    closes a period on [intensity == 0.0] only, so a sample below zero
    leaves the period open and unchanged. *)
Example negative_sample_keeps_period_open :
  summary_periods [sample 1 "rain"; sample (-1) "snow"; sample 2 "rain"] =
  [{| start := 0; end_ := 2; type_ := Some "rain"; max_intensity := 2 |}].
Proof. by vm_compute. Qed.

(** * The segmenter *)

(** C1. On samples whose intensity is not negative, the segmenter returns
    exactly the maximal contiguous runs of samples with intensity > 0, in
    input order: there are as many periods as runs, every run is the
    [start..end_] (inclusive) of a period and every period that of a run,
    and a period's [max_intensity] is the maximum intensity observed within
    its run. *)
Theorem segmenter_returns_maximal_runs (minutes : list Minute) :
  Forall valid_sample minutes →
  (∀ k, wet minutes k = true ↔
        ∃ m, minutes !! k = Some m ∧ (0 < intensity_of m)%Q) ∧
  length (summary_periods minutes) = count_runs minutes ∧
  in_input_order (summary_periods minutes) ∧
  (∀ s e : nat, is_run minutes s e →
     ∃ p, p ∈ summary_periods minutes ∧
       start p = Z.of_nat s ∧ end_ p = Z.of_nat e) ∧
  (∀ p, p ∈ summary_periods minutes →
     ∃ s e : nat, start p = Z.of_nat s ∧ end_ p = Z.of_nat e ∧
       is_run minutes s e ∧ is_peak_of minutes s e (max_intensity p)).
Proof.
  intros Hvalid.
  destruct (summary_periods_runs minutes Hvalid)
    as (Hsound & Hcomplete & Hsorted & Hcount).
  split_and!; [apply wet_iff|done..|].
  intros p Hp. destruct (Hsound p Hp) as (s & e & Hs & He & Hrun & Hpeak & _).
  by exists s, e.
Qed.

Lemma three_showers_valid : Forall valid_sample three_showers.
Proof. repeat constructor; by vm_compute. Qed.

Lemma segmenter_returns_maximal_runs_witness :
  Forall valid_sample three_showers ∧
  (∀ k, wet three_showers k = true ↔
        ∃ m, three_showers !! k = Some m ∧ (0 < intensity_of m)%Q) ∧
  length (summary_periods three_showers) = count_runs three_showers ∧
  in_input_order (summary_periods three_showers) ∧
  (∀ s e : nat, is_run three_showers s e →
     ∃ p, p ∈ summary_periods three_showers ∧
       start p = Z.of_nat s ∧ end_ p = Z.of_nat e) ∧
  (∀ p, p ∈ summary_periods three_showers →
     ∃ s e : nat, start p = Z.of_nat s ∧ end_ p = Z.of_nat e ∧
       is_run three_showers s e ∧
       is_peak_of three_showers s e (max_intensity p)).
Proof.
  split; [apply three_showers_valid|].
  apply (segmenter_returns_maximal_runs three_showers), three_showers_valid.
Defined.

(** C4, as the code has it.  On samples whose intensity is not negative, the
    type recorded for a period is the last type other than ["clear"] among
    its samples, and it is ["clear"] exactly when every sample of the period
    reports ["clear"] (an absent type counts as ["clear"]).  The type name
    that ends the period's description key is never ["clear"]: for such a
    period it is the generic ["precipitation"]. *)
Theorem period_type_is_last_named_type (minutes : list Minute) (p : Period) :
  Forall valid_sample minutes →
  p ∈ summary_periods minutes →
  ∃ (s e : nat) (t : string),
    start p = Z.of_nat s ∧ end_ p = Z.of_nat e ∧ is_run minutes s e ∧
    type_ p = Some t ∧
    is_last_type_of minutes s e t ∧
    (t = "clear" ↔
     ∀ k m, s ≤ k ≤ e → minutes !! k = Some m → type_of m = "clear") ∧
    _get_precipitation_description_key (type_ p) (max_intensity p) =
      tier_name (tier_of (max_intensity p)) +:+ "_" +:+
      type_name (kind_of (type_ p)) ∧
    type_name (kind_of (type_ p)) ≠ "clear" ∧
    (t = "clear" → type_name (kind_of (type_ p)) = "precipitation").
Proof.
  intros Hvalid Hp.
  destruct (summary_periods_runs minutes Hvalid) as (Hsound & _).
  destruct (Hsound p Hp) as (s & e & Hs & He & Hrun & _ & t & Ht & Hlast).
  exists s, e, t. split_and!; try done.
  - split.
    + intros ->. destruct Hlast as [[_ Hall]|[Hne _]]; done.
    + intros Hall. destruct Hlast as [[Hc _]|(Hne & k & m & Hk & Hm & Hkt & _)];
        [done|].
      rewrite (Hall k m Hk Hm) in Hkt. congruence.
  - apply description_key_eq.
  - apply type_name_not_clear.
  - intros ->. by rewrite Ht.
Qed.

Lemma clear_drizzle_valid : Forall valid_sample clear_drizzle.
Proof. repeat constructor; by vm_compute. Qed.

Lemma period_type_is_last_named_type_witness :
  ∃ (s e : nat) (t : string),
    0%Z = Z.of_nat s ∧ 0%Z = Z.of_nat e ∧ is_run clear_drizzle s e ∧
    Some "clear" = Some t ∧
    is_last_type_of clear_drizzle s e t ∧
    (t = "clear" ↔
     ∀ k m, s ≤ k ≤ e → clear_drizzle !! k = Some m → type_of m = "clear") ∧
    _get_precipitation_description_key (Some "clear") 1 =
      tier_name (tier_of 1) +:+ "_" +:+ type_name (kind_of (Some "clear")) ∧
    type_name (kind_of (Some "clear")) ≠ "clear" ∧
    (t = "clear" → type_name (kind_of (Some "clear")) = "precipitation").
Proof.
  apply (period_type_is_last_named_type clear_drizzle
           {| start := 0; end_ := 0; type_ := Some "clear"; max_intensity := 1 |}).
  - apply clear_drizzle_valid.
  - vm_compute. left.
Defined.

(** The period the segmenter emits for one minute of precipitation whose
    type is reported as ["clear"] has the type ["clear"]. *)
Lemma clear_period_is_emitted :
  ¬ Forall (λ p, type_ p ≠ Some "clear") (summary_periods clear_drizzle).
Proof.
  intros H. apply Forall_inv in H. by apply H.
Qed.

(** C10. On every list of samples the copy of the segmentation loop in
    [icon] returns the periods that the copy in
    [_generate_forecast_summary] returns: same starts, ends, types and
    maximum intensities.  So the summary and the icon of a payload come
    from one decomposition into periods: the summary from that of the
    first 60 samples, which is all that [native_value] hands on, the icon
    from that of the samples [icon] reads. *)
Theorem icon_loop_is_summary_loop (minutes : list Minute) :
  icon_periods minutes = summary_periods minutes ∧
  ∀ tr current_weather forecast_start forecast_end,
    let payload :=
      {| currentWeather := current_weather;
         forecastNextHour :=
           Some {| forecastStart := forecast_start;
                   forecastEnd := forecast_end;
                   minutes := Some minutes |} |} in
    let coordinator :=
      {| last_update_success := true; data := Some payload;
         translations := tr |} in
    icon coordinator =
      icon_of_periods (summary_periods minutes) (is_daylight_of payload) ∧
    native_value coordinator =
      (let! summary := summary_text tr (summary_periods (take 60 minutes)) in
       Ok (Some summary)).
Proof.
  assert (Hbody : ∀ st im, icon_loop_body st im = summary_loop_body st im)
    by (by intros st [i m]).
  assert (Hloop : ∀ ims st,
            fold_left icon_loop_body ims st = fold_left summary_loop_body ims st).
  { induction ims as [|im ims IH]; intros st; simpl; [done|].
    by rewrite Hbody, IH. }
  assert (Hperiods : icon_periods minutes = summary_periods minutes).
  { unfold icon_periods, summary_periods. by rewrite Hloop. }
  split; [done|]. intros tr cw fs fe payload coordinator. split.
  - unfold icon. cbn [data coordinator forecastNextHour payload].
    cbn [default from_option id].
    rewrite <- Hperiods. by destruct minutes.
  - unfold native_value.
    cbn [last_update_success data translations coordinator negb].
    replace (truthy_data payload) with true by (by destruct cw).
    cbn [negb forecastNextHour payload].
    replace (truthy_next_hour _) with true
      by (by unfold truthy_next_hour; destruct fs, fe).
    cbn [negb default from_option id].
    by destruct minutes.
Qed.

(** * The renderer *)

Lemma summary_part_renders (tr : gmap string string) (p : Period) :
  ∃ part, renders_as tr p part.
Proof.
  unfold renders_as.
  destruct (decide (start p = 0%Z)) as [Hs|Hs];
    destruct (decide (duration_of p = 1%Z)) as [Hd|Hd].
  - eexists. split; [by apply summary_part_now|]. split_and!; intros [??]; (done || lia).
  - eexists. split; [by apply summary_part_for_next|].
    split_and!; intros [??]; (done || lia).
  - eexists. split; [by apply summary_part_in|]. split_and!; intros [??]; (done || lia).
  - eexists. split; [by apply summary_part_starting_in|].
    split_and!; intros [??]; (done || lia).
Qed.

Lemma summary_parts_render (tr : gmap string string) (periods : list Period) :
  ∃ parts, summary_parts tr periods = Ok parts ∧
           Forall2 (renders_as tr) periods parts.
Proof.
  induction periods as [|p periods (parts & Hparts & Hall)]; simpl.
  - exists []. by split.
  - destruct (summary_part_renders tr p) as (part & Hpart).
    exists (part :: parts). destruct Hpart as [Hpart Hcases].
    rewrite Hpart, Hparts. simpl. split; [done|].
    constructor; [by split|done].
Qed.

Lemma summary_text_joins (tr : gmap string string) (periods : list Period) :
  ∃ parts,
    Forall2 (renders_as tr) periods parts ∧
    summary_text tr periods =
    Ok (match periods with
        | [] => _translate_state tr "no_precipitation"
        | _ :: _ => Py.join "; " parts
        end).
Proof.
  destruct (summary_parts_render tr periods) as (parts & Hparts & Hall).
  exists parts. split; [done|].
  unfold summary_text. destruct Hall as [|p part periods parts Hp Hall]; [done|].
  cbn [truthy_list negb]. by rewrite Hparts.
Qed.

(** C5. The renderer turns a list of periods that is not empty into one
    fragment per period, in order, joined with ["; "]; with
    [duration = end - start + 1], the fragment of a period is the "now"
    phrasing when [start = 0] and [duration = 1], the "for the next N
    minutes" phrasing when [start = 0] and [duration > 1], the "in N minutes"
    phrasing when [start > 0] and [duration = 1], and the "starting in N
    minutes, lasting M minutes" phrasing when [start > 0] and
    [duration > 1].  For the empty list it renders the state key
    ["no_precipitation"]. *)
Theorem renderer_selects_phrasing_and_joins (tr : gmap string string)
    (periods : list Period) :
  summary_text tr [] = Ok (_translate_state tr "no_precipitation") ∧
  (periods ≠ [] →
   ∃ parts,
     Forall2 (renders_as tr) periods parts ∧
     summary_text tr periods = Ok (Py.join "; " parts)).
Proof.
  split; [done|]. intros Hne.
  destruct (summary_text_joins tr periods) as (parts & Hall & Htext).
  exists parts. split; [done|]. by destruct periods.
Qed.

Lemma renderer_selects_phrasing_and_joins_witness :
  summary_periods three_showers ≠ [] ∧
  ∃ parts,
    Forall2 (renders_as ∅) (summary_periods three_showers) parts ∧
    summary_text ∅ (summary_periods three_showers) = Ok (Py.join "; " parts).
Proof.
  assert (H : summary_periods three_showers ≠ []) by (by vm_compute).
  split; [exact H|].
  exact (proj2 (renderer_selects_phrasing_and_joins ∅ (summary_periods three_showers)) H).
Defined.

Lemma summary_part_through_template (tr : gmap string string) (p : Period)
    (part : string) :
  summary_part tr p = Ok part → rendered_through_template tr p part.
Proof.
  intros Hpart.
  assert (∃ key template placeholders,
            templates !! key = Some template ∧
            summary_part tr p = _translate_forecast key placeholders)
    as (key & template & placeholders & Hkey & Hcall).
  { unfold summary_part.
    destruct (start p =? 0)%Z, (end_ p - start p + 1 =? 1)%Z;
      eexists _, _, _; (split; [|reflexivity]); reflexivity. }
  exists key, template, placeholders. split_and!; [done..| |].
  - intros e He.
    rewrite Hcall, (_translate_forecast_template key template) in Hpart by done.
    rewrite He in Hpart. by injection Hpart.
  - intros text Htext.
    rewrite Hcall, (_translate_forecast_template key template) in Hpart by done.
    rewrite Htext in Hpart. by injection Hpart.
Qed.

(** C3, as the code has it.  For each of the four template identifiers and
    every placeholder dictionary, [_translate_forecast] returns a string:
    the substituted template when substitution succeeds, and otherwise the
    template's own unformatted text, placeholders included (not the
    identifier).  The summary does not raise: every period gets its
    fragment from one such call, so a fragment whose substitution fails is
    its template's text, and whatever the other fragments are, all of them
    are joined with ["; "] into the summary. *)
Theorem template_failure_falls_back_to_template_text
    (key template : string) (placeholders tr : gmap string string)
    (periods : list Period) :
  templates !! key = Some template →
  (∀ e, Py.format template placeholders = Raise e →
        _translate_forecast key placeholders = Ok template) ∧
  (∀ s, Py.format template placeholders = Ok s →
        _translate_forecast key placeholders = Ok s) ∧
  (∃ parts,
     summary_parts tr periods = Ok parts ∧
     Forall2 (rendered_through_template tr) periods parts ∧
     summary_text tr periods =
     Ok (match periods with
         | [] => _translate_state tr "no_precipitation"
         | _ :: _ => Py.join "; " parts
         end)).
Proof.
  intros Hkey. rewrite (_translate_forecast_template key template) by done.
  split_and!.
  - by intros e ->.
  - by intros s ->.
  - destruct (summary_parts_render tr periods) as (parts & Hparts & Hall).
    exists parts. split_and!; [done| |].
    + eapply Forall2_impl; [done|].
      intros p part [Hpart _]. by apply summary_part_through_template.
    + unfold summary_text.
      destruct Hall as [|p part periods parts Hp Hall]; [done|].
      cbn [truthy_list negb]. by rewrite Hparts.
Qed.

Lemma template_failure_falls_back_to_template_text_witness :
  templates !! "now" = Some "{precipitation} now" ∧
  (∀ e, Py.format "{precipitation} now" ∅ = Raise e →
        _translate_forecast "now" ∅ = Ok "{precipitation} now") ∧
  (∀ s, Py.format "{precipitation} now" ∅ = Ok s →
        _translate_forecast "now" ∅ = Ok s) ∧
  (∃ parts,
     summary_parts ∅ (summary_periods three_showers) = Ok parts ∧
     Forall2 (rendered_through_template ∅) (summary_periods three_showers)
       parts ∧
     summary_text ∅ (summary_periods three_showers) =
     Ok (match summary_periods three_showers with
         | [] => _translate_state ∅ "no_precipitation"
         | _ :: _ => Py.join "; " parts
         end)).
Proof.
  split; [reflexivity|].
  apply (template_failure_falls_back_to_template_text "now"). reflexivity.
Defined.

(** Substitution into the "now" template fails on the empty dictionary, and
    what comes back is the template's text, not the identifier ["now"]. *)
Lemma fallback_is_not_the_identifier :
  Py.format "{precipitation} now" ∅ = Raise KeyError ∧
  _translate_forecast "now" ∅ = Ok "{precipitation} now" ∧
  _translate_forecast "now" ∅ ≠ Ok "now".
Proof. split_and!; [by vm_compute..|]. by vm_compute. Qed.

(** * The classifier and the icon *)

Lemma tier_of_thresholds (q : Q) :
  ((q < 5 # 2)%Q → tier_of q = Light) ∧
  ((5 # 2 <= q)%Q ∧ (q < 10)%Q → tier_of q = Moderate) ∧
  ((10 <= q)%Q → tier_of q = Heavy).
Proof.
  unfold tier_of. split_and!.
  - intros H%lt_true. by rewrite H.
  - intros [H1 H2%lt_true]. rewrite H2.
    destruct (Py.lt q (5 # 2)) eqn:E; [|done].
    apply lt_true in E. by destruct (Qlt_not_le _ _ E).
  - intros H.
    destruct (Py.lt q (5 # 2)) eqn:E1.
    { apply lt_true in E1. destruct (Qlt_not_le _ _ E1).
      eapply Qle_trans; [|exact H]. by vm_compute. }
    destruct (Py.lt q 10) eqn:E2; [|done].
    apply lt_true in E2. by destruct (Qlt_not_le _ _ E2).
Qed.

(** C7. The description key of a period is [tier + "_" + typeName]: the tier
    is light below 2.5, moderate from 2.5 up to but not including 10.0 and
    heavy from 10.0 on; the type name is the dominant type when that is
    rain, snow, sleet or hail, and ["precipitation"] otherwise. *)
Theorem description_key_is_tier_and_type (precip_type : option string)
    (max_intensity : Q) :
  _get_precipitation_description_key precip_type max_intensity =
    tier_name (tier_of max_intensity) +:+ "_" +:+ type_name (kind_of precip_type) ∧
  ((max_intensity < 5 # 2)%Q → tier_of max_intensity = Light) ∧
  ((5 # 2 <= max_intensity)%Q ∧ (max_intensity < 10)%Q →
   tier_of max_intensity = Moderate) ∧
  ((10 <= max_intensity)%Q → tier_of max_intensity = Heavy) ∧
  (∀ t, t ∈ ["rain"; "snow"; "sleet"; "hail"] →
        type_name (kind_of (Some t)) = t) ∧
  (∀ t, t ∉ ["rain"; "snow"; "sleet"; "hail"] →
        type_name (kind_of (Some t)) = "precipitation") ∧
  type_name (kind_of None) = "precipitation".
Proof.
  split; [|split_and!; try apply tier_of_thresholds].
  - apply description_key_eq.
  - intros t Ht. rewrite !elem_of_cons, elem_of_nil in Ht.
    by destruct Ht as [->|[->|[->|[->|[]]]]].
  - intros t Ht. rewrite !elem_of_cons, elem_of_nil in Ht.
    unfold kind_of. repeat case_bool_decide; simplify_eq; tauto.
  - done.
Qed.

(** C6. Without periods the icon is the day or night default, by the
    daylight flag.  With periods it is the icon of the rule of section 4.4
    applied to the first period, whatever the other periods and the
    daylight flag are.  On a payload that has the next-hour data set,
    [icon] is the icon of the periods its own loop finds. *)
Theorem icon_is_chosen_from_first_period :
  (∀ is_daylight,
     icon_of_periods [] is_daylight =
     if is_daylight then "mdi:weather-sunny" else "mdi:weather-night") ∧
  (∀ first rest is_daylight,
     icon_of_periods (first :: rest) is_daylight =
     icon_rule (kind_of (type_ first)) (tier_of (max_intensity first))) ∧
  (∀ lus tr current_weather next_hour_data,
     let payload := {| currentWeather := current_weather;
                       forecastNextHour := Some next_hour_data |} in
     icon {| last_update_success := lus; data := Some payload;
             translations := tr |} =
     icon_of_periods (icon_periods (default [] (minutes next_hour_data)))
       (is_daylight_of payload)).
Proof.
  split_and!.
  - done.
  - intros first rest is_daylight.
    unfold icon_of_periods, kind_of, tier_of.
    repeat case_bool_decide; by repeat destruct (Py.lt _ _).
  - intros lus tr cw nh payload. unfold icon. cbn [data forecastNextHour payload].
    by destruct (default [] (minutes nh)).
Qed.

(** * The sensor *)

Lemma _generate_forecast_summary_returns (tr : gmap string string)
    (minutes : list Minute) :
  ∃ summary, _generate_forecast_summary tr minutes = Ok summary.
Proof.
  unfold _generate_forecast_summary.
  destruct (summary_text_joins tr (summary_periods minutes)) as (parts & _ & ->).
  eauto.
Qed.

(** C8, as the code has it.  [native_value] never raises.  When the payload
    or its next-hour data set is absent it is [None], not a string.  When
    the last refresh succeeded, the data set is there and its [minutes]
    array is missing or empty, it is the translated ["no_precipitation"]
    state. *)
Theorem missing_minutes_yield_no_precipitation (coordinator : Coordinator) :
  (∃ value, native_value coordinator = Ok value) ∧
  (forecast_of coordinator = None → native_value coordinator = Ok None) ∧
  (∀ next_hour_data,
     last_update_success coordinator = true →
     forecast_of coordinator = Some next_hour_data →
     default [] (minutes next_hour_data) = [] →
     native_value coordinator =
     Ok (Some (_translate_state (translations coordinator) "no_precipitation"))).
Proof.
  unfold native_value, forecast_of.
  destruct coordinator as [lus [[cw [nh|]]|] tr]; cbn [last_update_success data translations forecastNextHour mbind option_bind].
  - assert (Ht : truthy_data {| currentWeather := cw; forecastNextHour := Some nh |} = true).
    { unfold truthy_data. cbn [forecastNextHour].
      rewrite (bool_decide_eq_true_2 (is_Some (Some nh))) by eauto.
      apply orb_true_r. }
    rewrite Ht. cbn [negb]. split_and!.
    + destruct lus; cbn [negb]; [|eauto].
      destruct (truthy_next_hour nh); cbn [negb]; [|eauto].
      destruct (default [] (minutes nh)) as [|m ms] eqn:E; cbn [truthy_list negb];
        [eauto|].
      destruct (_generate_forecast_summary_returns tr (take 60 (m :: ms)))
        as [summary ->]. simpl. eauto.
    + done.
    + intros ? -> [= <-] ->. cbn [negb truthy_list].
      by destruct (truthy_next_hour nh).
  - split_and!; [|by destruct lus, (truthy_data _)|done].
    destruct lus, (truthy_data _); simpl; eauto.
  - split_and!; [|by destruct lus|done].
    destruct lus; simpl; eauto.
Qed.

Lemma missing_minutes_yield_no_precipitation_witness :
  (∃ value, native_value (coordinator_with []) = Ok value) ∧
  (forecast_of (coordinator_with []) = None →
   native_value (coordinator_with []) = Ok None) ∧
  (∀ next_hour_data,
     last_update_success (coordinator_with []) = true →
     forecast_of (coordinator_with []) = Some next_hour_data →
     default [] (minutes next_hour_data) = [] →
     native_value (coordinator_with []) =
     Ok (Some (_translate_state (translations (coordinator_with []))
                 "no_precipitation"))) ∧
  native_value (coordinator_with []) = Ok (Some "No Precipitation").
Proof.
  pose proof (missing_minutes_yield_no_precipitation (coordinator_with []))
    as (Hreturns & Habsent & Hempty).
  split_and!; [exact Hreturns|exact Habsent|exact Hempty|].
  rewrite (Hempty _ eq_refl eq_refl eq_refl). reflexivity.
Defined.

(** A payload without the next-hour data set gives [None], which is not the
    ["no_precipitation"] state. *)
Lemma absent_forecast_gives_none :
  forecast_of coordinator_without_forecast = None ∧
  native_value coordinator_without_forecast = Ok None ∧
  native_value coordinator_without_forecast ≠
  Ok (Some (_translate_state (translations coordinator_without_forecast)
              "no_precipitation")).
Proof. split_and!; [done..|]. by vm_compute. Qed.

(** C9. When the [minutes] array is not empty, [minute_count] is its length
    as received, whatever that length is, and the [minutes] attribute has
    one record per minute, in order, that carries the minute's start time,
    intensity, chance and type unchanged. *)
Theorem attributes_pass_minutes_through (coordinator : Coordinator)
    (payload : CoordinatorData) (next_hour_data : NextHour)
    (received : list Minute) :
  data coordinator = Some payload →
  forecastNextHour payload = Some next_hour_data →
  minutes next_hour_data = Some received →
  received ≠ [] →
  minute_count (extra_state_attributes coordinator) =
    Some (Z.of_nat (length received)) ∧
  ∃ records,
    attr_minutes (extra_state_attributes coordinator) = Some records ∧
    length records = length received ∧
    ∀ k minute, received !! k = Some minute →
      ∃ record, records !! k = Some record ∧
        start_time record = startTime minute ∧
        precipitation_intensity record = precipitationIntensity minute ∧
        precipitation_chance record = precipitationChance minute ∧
        precipitation_type record = precipitationType minute.
Proof.
  intros Hdata Hnh Hminutes Hne.
  unfold extra_state_attributes. rewrite Hdata, Hnh, Hminutes.
  destruct received as [|m ms]; [done|].
  cbn [default from_option id truthy_list minute_count attr_minutes].
  split; [done|].
  eexists. split; [done|]. split; [by rewrite length_map|].
  intros k minute Hk. exists (minute_attributes minute).
  split; [|done]. by rewrite list_lookup_fmap, Hk.
Qed.

Lemma attributes_pass_minutes_through_witness :
  minute_count (extra_state_attributes (coordinator_with rain_after_the_hour)) =
    Some 61%Z ∧
  ∃ records,
    attr_minutes (extra_state_attributes (coordinator_with rain_after_the_hour)) =
      Some records ∧
    length records = length rain_after_the_hour ∧
    ∀ k minute, rain_after_the_hour !! k = Some minute →
      ∃ record, records !! k = Some record ∧
        start_time record = startTime minute ∧
        precipitation_intensity record = precipitationIntensity minute ∧
        precipitation_chance record = precipitationChance minute ∧
        precipitation_type record = precipitationType minute.
Proof.
  apply (attributes_pass_minutes_through (coordinator_with rain_after_the_hour)
           _ _ rain_after_the_hour eq_refl eq_refl eq_refl).
  discriminate.
Defined.

(** * Truncation *)

Lemma truthy_list_take {A : Type} (n : nat) (l : list A) :
  truthy_list (take (S n) l) = truthy_list l.
Proof. by destruct l. Qed.

Lemma native_value_truncated (coordinator : Coordinator) :
  native_value (truncated coordinator) = native_value coordinator.
Proof.
  destruct coordinator as [lus [[cw [[fs fe [ms|]]|]]|] tr]; try done.
  unfold native_value, truncated.
  cbn [last_update_success data translations forecastNextHour fmap option_fmap
       option_map minutes forecastStart forecastEnd].
  destruct lus; [|done]. cbn [negb].
  replace (truthy_data _) with true by (by destruct cw).
  replace (truthy_data _) with true by (by destruct cw).
  cbn [negb].
  replace (truthy_next_hour _) with true
    by (by unfold truthy_next_hour; destruct fs, fe).
  replace (truthy_next_hour _) with true
    by (by unfold truthy_next_hour; destruct fs, fe).
  cbn [negb default from_option id].
  rewrite truthy_list_take. destruct (truthy_list ms); [|done]. cbn [negb].
  by rewrite take_take.
Qed.

(** C2.  [native_value] is the same on a payload and on the payload cut to
    its first 60 samples.  [icon] is not: on [rain_after_the_hour], 61
    samples of which only the last is wet, it runs its loop over all 61 and
    shows rain, where the summary and the icon of the cut payload show
    none. *)
Theorem icon_reads_past_the_hour :
  (∀ coordinator, native_value (truncated coordinator) = native_value coordinator) ∧
  native_value (coordinator_with rain_after_the_hour) = Ok (Some "No Precipitation") ∧
  icon (coordinator_with rain_after_the_hour) = "mdi:weather-rainy" ∧
  icon (truncated (coordinator_with rain_after_the_hour)) = "mdi:weather-sunny".
Proof.
  split_and!; [apply native_value_truncated|by vm_compute..].
Qed.

(** * Periods on any samples *)

Lemma wet_not_zero (l : list Minute) (k : nat) : wet l k = true → zero l k = false.
Proof.
  unfold wet, zero. destruct (l !! k) as [m|]; [|done].
  unfold Py.gt, Py.eq. by destruct (intensity_of m ?= 0)%Q.
Qed.

Lemma gt_not_eq (a b : Q) : Py.gt a b = true → Py.eq a b = false.
Proof. unfold Py.gt, Py.eq. by destruct (a ?= b)%Q. Qed.

Lemma max_positive (a b : Q) : (0 < a)%Q → (0 < Py.max a b)%Q.
Proof.
  intros Ha. eapply Qlt_le_trans; [exact Ha|apply max_upper_l].
Qed.

Lemma separated_snoc (periods : list Period) (p : Period) :
  separated periods →
  (∀ q, q ∈ periods → (end_ q + 1 < start p)%Z) →
  separated (periods ++ [p]).
Proof.
  unfold separated. induction 1 as [|q periods Hsorted IH Hq]; intros Hp; simpl.
  - repeat constructor.
  - constructor.
    + apply IH. intros r Hr. apply Hp. by right.
    + apply Forall_app. split; [done|].
      constructor; [|done]. apply Hp. by left.
Qed.

Section any_sample.
Context (pre : list Minute) (m : Minute).

Lemma zero_snoc_lt (k : nat) : k < length pre → zero (pre ++ [m]) k = zero pre k.
Proof. intros H. unfold zero. by rewrite lookup_app_l. Qed.

Lemma zero_snoc_last : zero (pre ++ [m]) (length pre) = Py.eq (intensity_of m) 0.
Proof. unfold zero. by rewrite list_lookup_middle. Qed.

(** A sample that does not exceed the peak so far leaves it the peak. *)
Lemma is_peak_of_snoc_skip (s : nat) (q : Q) :
  s < length pre → (intensity_of m <= q)%Q →
  is_peak_of pre s (length pre - 1) q → is_peak_of (pre ++ [m]) s (length pre) q.
Proof.
  intros Hs Hm [(k & x & Hk & Hx & Hq) Hub]. split.
  - exists k, x. rewrite lookup_app_l by lia. split_and!; try done; lia.
  - intros j y Hj. destruct (decide (j = length pre)) as [->|].
    + rewrite list_lookup_middle by done. by intros [= <-].
    + rewrite lookup_app_l by lia. apply Hub. lia.
Qed.

Lemma well_formed_in_snoc (p : Period) :
  well_formed_in pre p → (end_ p + 1 < Z.of_nat (length pre))%Z →
  well_formed_in (pre ++ [m]) p.
Proof.
  intros (s & e & Hs & He & Hse & Hwet & Hin & Hnext & Ht & Hmax & Hpeak) Hend.
  exists s, e. rewrite length_app. cbn [length].
  split_and!; try done; try lia.
  - rewrite wet_snoc_lt by lia. done.
  - intros k Hk. rewrite zero_snoc_lt by lia. auto.
  - intros _. rewrite zero_snoc_lt by lia. apply Hnext. lia.
  - apply is_peak_of_snoc; [lia|done].
Qed.

Lemma loop_wf_step (st : LoopState) :
  loop_wf pre st →
  loop_wf (pre ++ [m]) (summary_loop_body st (Z.of_nat (length pre), m)).
Proof.
  intros [Hclosed Hsep Hcount Hwet Hopen].
  assert (Hlen : length (pre ++ [m]) = length pre + 1)
    by (rewrite length_app; simpl; lia).
  assert (Hkeep : ∀ p, p ∈ precipitation_periods st →
            well_formed_in (pre ++ [m]) p ∧
            (end_ p + 1 < Z.of_nat (length (pre ++ [m])))%Z).
  { intros p Hp. destruct (Hclosed p Hp) as [Hwf Hend].
    split; [by apply well_formed_in_snoc|lia]. }
  assert (Hold : ∀ k, wet (pre ++ [m]) k = true →
            k = length pre ∧ Py.gt (intensity_of m) 0 = true ∨
            k < length pre ∧ wet pre k = true).
  { intros k Hk. destruct (decide (k < length pre)) as [Hlt|Hge].
    - right. by rewrite wet_snoc_lt in Hk.
    - left. apply wet_lt in Hk as Hk'. assert (k = length pre) as -> by lia.
      by rewrite wet_snoc_last in Hk. }
  unfold summary_loop_body. fold (intensity_of m). fold (type_of m).
  destruct (current_period_start st) as [sz|] eqn:Hst;
    destruct (Py.gt (intensity_of m) 0) eqn:Hgt;
    [|destruct (Py.eq (intensity_of m) 0) eqn:Heq| |].
  - (* the open period continues *)
    destruct Hopen
      as (s0 & -> & Hs0 & Hwet0 & Hin0 & Ht0 & Hmax0 & Hpeak0 & Hbefore).
    split; cbn [precipitation_periods current_period_start
                current_period_type current_period_max_intensity].
    + done.
    + done.
    + lia.
    + intros k [[-> _]|[Hk Hwk]]%Hold.
      * right. eexists. split; [done|lia].
      * destruct (Hwet k Hwk) as [?|(sz & [= <-] & ?)]; [by left|].
        right. eauto.
    + exists s0. rewrite Hlen.
      replace (length pre + 1 - 1) with (length pre) by lia.
      split_and!; try done.
      * lia.
      * by rewrite wet_snoc_lt.
      * intros k Hk. destruct (decide (k = length pre)) as [->|].
        -- rewrite zero_snoc_last. by apply gt_not_eq.
        -- rewrite zero_snoc_lt by lia. apply Hin0. lia.
      * by destruct (negb _).
      * by apply max_positive.
      * by apply is_peak_of_snoc_extend.
  - (* the open period is closed *)
    destruct Hopen
      as (s0 & -> & Hs0 & Hwet0 & Hin0 & Ht0 & Hmax0 & Hpeak0 & Hbefore).
    split; cbn [precipitation_periods current_period_start
                current_period_type current_period_max_intensity].
    + intros p [Hp|Hp]%elem_of_app; [by apply Hkeep|].
      apply list_elem_of_singleton in Hp as ->. cbn [end_]. split; [|lia].
      exists s0, (length pre - 1). cbn [start end_ type_ max_intensity].
      split_and!; try done; try lia.
      * by rewrite wet_snoc_lt.
      * intros k Hk. rewrite zero_snoc_lt by lia. apply Hin0. lia.
      * intros _. replace (length pre - 1 + 1) with (length pre) by lia.
        by rewrite zero_snoc_last.
      * apply is_peak_of_snoc; [lia|done].
    + apply separated_snoc; [done|]. intros q Hq. cbn [start]. by apply Hbefore.
    + rewrite length_app. simpl. lia.
    + intros k [[_ ?]|[Hk Hwk]]%Hold; [done|]. left.
      destruct (Hwet k Hwk) as [(p & Hp & Hkp)|(sz & [= <-] & Hsz)].
      * exists p. split; [|done]. apply elem_of_app. by left.
      * eexists. split; [apply elem_of_app; right; by apply list_elem_of_singleton|].
        cbn [start end_]. lia.
    + done.
  - (* a sample below zero: the period stays open *)
    destruct Hopen
      as (s0 & -> & Hs0 & Hwet0 & Hin0 & Ht0 & Hmax0 & Hpeak0 & Hbefore).
    split; rewrite ?Hst.
    + done.
    + done.
    + lia.
    + intros k [[_ ?]|[Hk Hwk]]%Hold; [done|]. by apply Hwet.
    + exists s0. rewrite Hlen.
      replace (length pre + 1 - 1) with (length pre) by lia.
      split_and!; try done.
      * lia.
      * by rewrite wet_snoc_lt.
      * intros k Hk. destruct (decide (k = length pre)) as [->|].
        -- by rewrite zero_snoc_last.
        -- rewrite zero_snoc_lt by lia. apply Hin0. lia.
      * apply is_peak_of_snoc_skip; [done| |done].
        apply gt_false in Hgt. eapply Qle_trans; [exact Hgt|].
        by apply Qlt_le_weak.
  - (* a period opens *)
    split; cbn [precipitation_periods current_period_start
                current_period_type current_period_max_intensity].
    + done.
    + done.
    + lia.
    + intros k [[-> _]|[Hk Hwk]]%Hold.
      * right. eexists. split; [done|lia].
      * destruct (Hwet k Hwk) as [?|(sz & [=] & _)]. by left.
    + exists (length pre). rewrite Hlen.
      replace (length pre + 1 - 1) with (length pre) by lia.
      split_and!; try done.
      * lia.
      * by rewrite wet_snoc_last.
      * intros k Hk. assert (k = length pre) as -> by lia.
        rewrite zero_snoc_last. by apply gt_not_eq.
      * by apply gt_true.
      * apply is_peak_of_snoc_open.
      * intros p Hp. by destruct (Hclosed p Hp).
  - (* nothing is open and the sample is not wet *)
    split; rewrite ?Hst.
    + done.
    + done.
    + lia.
    + intros k [[_ ?]|[Hk Hwk]]%Hold; [congruence|]. by apply Hwet.
    + done.
Qed.

End any_sample.

Lemma loop_wf_holds (minutes : list Minute) :
  loop_wf minutes (fold_left summary_loop_body (enumerate minutes) loop_init).
Proof.
  induction minutes as [|m pre IH] using rev_ind.
  - split; simpl; try done.
    + intros p Hp. by apply elem_of_nil in Hp.
    + constructor.
  - rewrite summary_loop_snoc. by apply loop_wf_step.
Qed.

Lemma summary_periods_well_formed (minutes : list Minute) :
  Forall (well_formed_in minutes) (summary_periods minutes) ∧
  separated (summary_periods minutes) ∧
  2 * length (summary_periods minutes) ≤ length minutes + 1 ∧
  (∀ k, wet minutes k = true →
     ∃ p, p ∈ summary_periods minutes ∧ (start p <= Z.of_nat k <= end_ p)%Z).
Proof.
  destruct (loop_wf_holds minutes) as [Hclosed Hsep Hcount Hwet Hopen].
  unfold summary_periods, summary_loop_end.
  destruct (current_period_start _) as [sz|] eqn:Hst.
  - destruct Hopen
      as (s0 & -> & Hs0 & Hwet0 & Hin0 & Ht0 & Hmax0 & Hpeak0 & Hbefore).
    split_and!.
    + apply Forall_app. split.
      * apply Forall_forall. intros p Hp. by destruct (Hclosed p Hp).
      * apply Forall_singleton. exists s0, (length minutes - 1).
        cbn [start end_ type_ max_intensity].
        split_and!; try done; try lia.
        intros k Hk. apply Hin0. lia.
    + apply separated_snoc; [done|]. intros q Hq. cbn [start]. by apply Hbefore.
    + rewrite length_app. simpl. lia.
    + intros k Hk. apply wet_lt in Hk as Hlt.
      destruct (Hwet k Hk) as [(p & Hp & Hkp)|(sz & [= <-] & Hsz)].
      * exists p. split; [|done]. apply elem_of_app. by left.
      * eexists. split; [apply elem_of_app; right; by apply list_elem_of_singleton|].
        cbn [start end_]. lia.
  - split_and!.
    + apply Forall_forall. intros p Hp. by destruct (Hclosed p Hp).
    + done.
    + lia.
    + intros k Hk. by destruct (Hwet k Hk) as [?|(? & [=] & _)].
Qed.

Lemma summary_periods_nil_iff (minutes : list Minute) :
  summary_periods minutes = [] ↔ ∀ k, wet minutes k = false.
Proof.
  pose proof (summary_periods_well_formed minutes) as (Hwf & _ & _ & Hwet).
  split.
  - intros Hnil k. destruct (wet minutes k) eqn:Hk; [|done].
    destruct (Hwet k Hk) as (p & Hp & _). rewrite Hnil in Hp.
    by apply elem_of_nil in Hp.
  - intros Hdry. destruct (summary_periods minutes) as [|p ps]; [done|].
    apply Forall_inv in Hwf as (s & e & _ & _ & _ & Hs & _). congruence.
Qed.

(** X1. Whatever the samples are, every period the segmenter returns lies
    within them: [0 <= start <= end_ < len(minutes)], the sample at [start]
    has [intensity > 0], no sample of the period has [intensity == 0.0], the
    period stops at the last sample or right before a sample with
    [intensity == 0.0], its type is a string, and its maximum is positive
    and is the greatest intensity among the samples [start..end_]. *)
Theorem periods_are_well_formed (minutes : list Minute) :
  Forall (well_formed_in minutes) (summary_periods minutes).
Proof. apply summary_periods_well_formed. Qed.

(** X2. Whatever the samples are, the periods come in input order and at
    least one sample lies between any two of them. *)
Theorem periods_are_separated (minutes : list Minute) :
  separated (summary_periods minutes).
Proof. apply summary_periods_well_formed. Qed.

(** X3. [n] samples hold at most [(n + 1) / 2] periods, so the summary of
    [native_value], which reads 60 samples at most, has at most 30
    fragments. *)
Theorem at_most_thirty_periods (minutes : list Minute) :
  2 * length (summary_periods minutes) ≤ length minutes + 1 ∧
  length (summary_periods (take 60 minutes)) ≤ 30.
Proof.
  split; [apply summary_periods_well_formed|].
  pose proof (summary_periods_well_formed (take 60 minutes)) as (_ & _ & H & _).
  rewrite length_take in H. lia.
Qed.

(** X4. The segmenter returns no period exactly when no sample has
    [intensity > 0]; the summary is then the ["no_precipitation"] state. *)
Theorem no_period_iff_no_wet_sample (tr : gmap string string)
    (minutes : list Minute) :
  (summary_periods minutes = [] ↔ ∀ k, wet minutes k = false) ∧
  ((∀ k, wet minutes k = false) →
   _generate_forecast_summary tr minutes =
   Ok (_translate_state tr "no_precipitation")).
Proof.
  split; [apply summary_periods_nil_iff|]. intros Hdry%summary_periods_nil_iff.
  unfold _generate_forecast_summary. by rewrite Hdry.
Qed.

Lemma no_period_iff_no_wet_sample_witness :
  (summary_periods (replicate 60 (sample 0 "clear")) = [] ↔
   ∀ k, wet (replicate 60 (sample 0 "clear")) k = false) ∧
  _generate_forecast_summary ∅ (replicate 60 (sample 0 "clear")) =
  Ok (_translate_state ∅ "no_precipitation").
Proof.
  destruct (no_period_iff_no_wet_sample ∅ (replicate 60 (sample 0 "clear")))
    as [Hiff Hdry].
  split; [exact Hiff|]. apply Hdry, Hiff. reflexivity.
Defined.

Lemma separated_elements (periods : list Period) (p q : Period) :
  separated periods → p ∈ periods → q ∈ periods →
  p = q ∨ (end_ p + 1 < start q)%Z ∨ (end_ q + 1 < start p)%Z.
Proof.
  unfold separated. induction 1 as [|r periods Hsorted IH Hr]; intros Hp Hq.
  - by apply elem_of_nil in Hp.
  - rewrite Forall_forall in Hr.
    apply elem_of_cons in Hp as [->|Hp]; apply elem_of_cons in Hq as [->|Hq];
      auto.
Qed.

(** X5. Whatever the samples are, every sample with [intensity > 0] lies in
    exactly one period: no wet minute is left out of the summary, and none
    is counted twice. *)
Theorem every_wet_sample_is_in_one_period (minutes : list Minute) (k : nat) :
  wet minutes k = true →
  ∃ p, p ∈ summary_periods minutes ∧
       (start p <= Z.of_nat k <= end_ p)%Z ∧
       ∀ q, q ∈ summary_periods minutes →
            (start q <= Z.of_nat k <= end_ q)%Z → q = p.
Proof.
  intros Hk.
  pose proof (summary_periods_well_formed minutes) as (_ & Hsep & _ & Hcover).
  destruct (Hcover k Hk) as (p & Hp & Hkp).
  exists p. split_and!; [done|lia|lia|]. intros q Hq Hkq.
  destruct (separated_elements _ q p Hsep Hq Hp) as [?|[?|?]]; [done|lia..].
Qed.

Lemma every_wet_sample_is_in_one_period_witness :
  wet three_showers 4 = true ∧
  ∃ p, p ∈ summary_periods three_showers ∧
       (start p <= Z.of_nat 4 <= end_ p)%Z ∧
       ∀ q, q ∈ summary_periods three_showers →
            (start q <= Z.of_nat 4 <= end_ q)%Z → q = p.
Proof.
  split; [reflexivity|].
  apply (every_wet_sample_is_in_one_period three_showers 4). reflexivity.
Defined.

(** * The summary of a payload *)

Lemma Forall2_refine {A B : Type} (P : A → Prop) (R Q : A → B → Prop)
    (l : list A) (k : list B) :
  (∀ x y, P x → R x y → Q x y) → Forall P l → Forall2 R l k → Forall2 Q l k.
Proof.
  intros H HP HR. induction HR as [|x y l k Hxy HR IH]; [constructor|].
  apply Forall_cons in HP as [Hx HP]. constructor; auto.
Qed.

Lemma well_formed_in_duration (minutes : list Minute) (p : Period) :
  well_formed_in minutes p → (0 <= start p)%Z ∧ (1 <= duration_of p)%Z.
Proof.
  intros (s & e & Hs & He & Hse & _). unfold duration_of. lia.
Qed.

Lemma renders_as_is_phrasing (tr : gmap string string) (minutes : list Minute)
    (p : Period) (part : string) :
  well_formed_in minutes p → renders_as tr p part → is_phrasing tr p part.
Proof.
  intros [Hstart Hduration]%well_formed_in_duration
         (_ & Hnow & Hnext & Hin & Hstarting).
  unfold is_phrasing.
  destruct (decide (start p = 0%Z)), (decide (duration_of p = 1%Z)).
  - left. auto.
  - right; left. split_and!; [done|lia|apply Hnext; lia].
  - right; right; left. split_and!; [lia|done|apply Hin; lia].
  - right; right; right. split_and!; [lia|lia|apply Hstarting; lia].
Qed.

(** X6. Whatever the samples are, the summary is made of one phrasing per
    period: each fragment is the "now", "for the next", "in" or "starting
    in" phrasing its period's start and duration call for, no period falls
    outside the four cases, and every period but the first starts later
    than now. *)
Theorem summary_is_made_of_phrasings (tr : gmap string string)
    (minutes : list Minute) :
  ∃ parts,
    Forall2 (is_phrasing tr) (summary_periods minutes) parts ∧
    _generate_forecast_summary tr minutes =
      Ok (match summary_periods minutes with
          | [] => _translate_state tr "no_precipitation"
          | _ :: _ => Py.join "; " parts
          end) ∧
    Forall (λ p, (start p > 0)%Z) (tail (summary_periods minutes)).
Proof.
  pose proof (summary_periods_well_formed minutes) as (Hwf & Hsep & _).
  destruct (summary_text_joins tr (summary_periods minutes))
    as (parts & Hparts & Htext).
  exists parts. split_and!; [|done|].
  - eapply Forall2_refine; [|exact Hwf|exact Hparts].
    intros p part. apply renders_as_is_phrasing.
  - destruct (summary_periods minutes) as [|p ps]; [constructor|].
    pose proof (Forall_inv Hwf) as [Hstart Hduration]%well_formed_in_duration.
    unfold duration_of in Hduration.
    inversion Hsep as [|? ? _ Hlater]; subst. simpl.
    eapply Forall_impl; [exact Hlater|]. intros q Hq. simpl in Hq. lia.
Qed.

(** * Splitting the samples *)

Lemma enumerate_from_app {A : Type} (i : Z) (l k : list A) :
  enumerate_from i (l ++ k) =
  enumerate_from i l ++ enumerate_from (i + Z.of_nat (length l)) k.
Proof.
  revert i. induction l as [|x l IH]; intros i; cbn [app enumerate_from length].
  - by rewrite Z.add_0_r.
  - rewrite IH, Nat2Z.inj_succ.
    by replace (i + 1 + Z.of_nat (length l))%Z
      with (i + Z.succ (Z.of_nat (length l)))%Z by lia.
Qed.

(** The loop only ever appends to [precipitation_periods]. *)
Lemma summary_loop_body_grows (st : LoopState) (im : Z * Minute) :
  precipitation_periods st `prefix_of`
  precipitation_periods (summary_loop_body st im).
Proof.
  destruct im as [i m]. unfold summary_loop_body.
  destruct (current_period_start st); repeat destruct (Py.gt _ _);
    repeat destruct (Py.eq _ _); cbn [precipitation_periods];
    (done || by apply prefix_app_r).
Qed.

Lemma summary_loop_grows (ims : list (Z * Minute)) (st : LoopState) :
  precipitation_periods st `prefix_of`
  precipitation_periods (fold_left summary_loop_body ims st).
Proof.
  revert st. induction ims as [|im ims IH]; intros st; simpl; [done|].
  etrans; [apply summary_loop_body_grows|apply IH].
Qed.

Lemma summary_loop_end_grows (st : LoopState) (len : Z) :
  ∃ last, summary_loop_end st len = precipitation_periods st ++ last ∧
          length last ≤ 1.
Proof.
  unfold summary_loop_end. destruct (current_period_start st).
  - eexists [_]. split; [done|simpl; lia].
  - exists []. split; [by rewrite app_nil_r|simpl; lia].
Qed.

(** X7. The periods found in the first samples of a list, the last of them
    apart, are found unchanged in the whole list, at the head of its
    periods: reading on can only change the period that was still open. *)
Theorem periods_of_a_prefix_are_kept (pre rest : list Minute) :
  ∃ closed last,
    summary_periods pre = closed ++ last ∧ length last ≤ 1 ∧
    closed `prefix_of` summary_periods (pre ++ rest).
Proof.
  unfold summary_periods at 1.
  destruct (summary_loop_end_grows
              (fold_left summary_loop_body (enumerate pre) loop_init)
              (Z.of_nat (length pre))) as (last & Hlast & Hlen).
  eexists _, last. split_and!; [exact Hlast|done|].
  unfold summary_periods, enumerate.
  rewrite enumerate_from_app, fold_left_app.
  destruct (summary_loop_end_grows
              (fold_left summary_loop_body
                 (enumerate_from (0 + Z.of_nat (length pre)) rest)
                 (fold_left summary_loop_body (enumerate_from 0 pre) loop_init))
              (Z.of_nat (length (pre ++ rest)))) as (last' & -> & _).
  etrans; [apply summary_loop_grows|]. by apply prefix_app_r.
Qed.

Lemma summary_loop_body_resets (st : LoopState) (im : Z * Minute) :
  reset_when_closed st → reset_when_closed (summary_loop_body st im).
Proof.
  destruct im as [i m]. unfold reset_when_closed, summary_loop_body.
  intros Hst. destruct (current_period_start st) eqn:E;
    repeat destruct (Py.gt _ _); repeat destruct (Py.eq _ _);
    cbn [current_period_start current_period_type current_period_max_intensity];
    rewrite ?E; auto; done.
Qed.

Lemma summary_loop_resets (ims : list (Z * Minute)) (st : LoopState) :
  reset_when_closed st → reset_when_closed (fold_left summary_loop_body ims st).
Proof.
  revert st. induction ims as [|im ims IH]; intros st Hst; simpl; [done|].
  by apply IH, summary_loop_body_resets.
Qed.

(** A sample with [intensity == 0.0] leaves nothing open. *)
Lemma summary_loop_body_zero (st : LoopState) (i : Z) (m : Minute) :
  Py.eq (intensity_of m) 0 = true →
  current_period_start (summary_loop_body st (i, m)) = None.
Proof.
  intros Hzero. unfold summary_loop_body. fold (intensity_of m).
  assert (Py.gt (intensity_of m) 0 = false) as ->.
  { destruct (Py.gt _ _) eqn:E; [|done]. apply gt_not_eq in E. congruence. }
  rewrite Hzero. by destruct (current_period_start st) eqn:E.
Qed.

Lemma closed_after_zero (pre : list Minute) :
  zero pre (length pre - 1) = true →
  ∃ periods,
    fold_left summary_loop_body (enumerate pre) loop_init =
      {| precipitation_periods := periods;
         current_period_start := None;
         current_period_type := None;
         current_period_max_intensity := 0 |} ∧
    summary_periods pre = periods.
Proof.
  destruct pre as [|m pre _] using rev_ind; [done|].
  rewrite length_app. cbn [length].
  replace (length pre + 1 - 1) with (length pre) by lia.
  rewrite zero_snoc_last. intros Hzero.
  pose proof (summary_loop_resets (enumerate (pre ++ [m])) loop_init) as Hreset.
  unfold summary_periods, summary_loop_end.
  rewrite summary_loop_snoc in *.
  pose proof (summary_loop_body_zero
                (fold_left summary_loop_body (enumerate pre) loop_init)
                (Z.of_nat (length pre)) m Hzero) as Hclosed.
  destruct (summary_loop_body _ _) as [ps st ty mx]. cbn in Hclosed. subst st.
  destruct Hreset as [Hty Hmx]; [done..|]. cbn in Hty, Hmx. subst.
  by exists ps.
Qed.

Lemma summary_loop_body_shift (before : list Period) (n i : Z) (m : Minute)
    (st : LoopState) :
  summary_loop_body (shift_state before n st) ((i + n)%Z, m) =
  shift_state before n (summary_loop_body st (i, m)).
Proof.
  unfold summary_loop_body, shift_state.
  cbn [current_period_start current_period_type current_period_max_intensity
       precipitation_periods].
  destruct (current_period_start st) as [s|] eqn:E;
    cbn [fmap option_fmap option_map];
    repeat destruct (Py.gt _ _); repeat destruct (Py.eq _ _);
    cbn [current_period_start current_period_type current_period_max_intensity
         precipitation_periods fmap option_fmap option_map];
    rewrite ?E; try done.
  rewrite map_app, app_assoc. cbn [map].
  by replace (i + n - 1)%Z with (i - 1 + n)%Z by lia.
Qed.

Lemma summary_loop_shift (before : list Period) (n i : Z) (rest : list Minute)
    (st : LoopState) :
  fold_left summary_loop_body (enumerate_from (i + n) rest)
    (shift_state before n st) =
  shift_state before n (fold_left summary_loop_body (enumerate_from i rest) st).
Proof.
  revert i st. induction rest as [|m rest IH]; intros i st; [done|].
  cbn [enumerate_from fold_left].
  rewrite summary_loop_body_shift.
  replace (i + n + 1)%Z with (i + 1 + n)%Z by lia. apply IH.
Qed.

Lemma summary_loop_end_shift (before : list Period) (n len : Z) (st : LoopState) :
  summary_loop_end (shift_state before n st) (len + n) =
  before ++ map (shift n) (summary_loop_end st len).
Proof.
  unfold summary_loop_end, shift_state.
  cbn [current_period_start current_period_type current_period_max_intensity
       precipitation_periods].
  destruct (current_period_start st) as [s|]; cbn [fmap option_fmap option_map];
    [|done].
  rewrite map_app, app_assoc. cbn [map].
  by replace (len + n - 1)%Z with (len - 1 + n)%Z by lia.
Qed.

(** X8. After a sample with [intensity == 0.0] the segmenter starts afresh:
    the periods of a list cut right after such a sample are the periods of
    the first part followed by the periods of the second part, moved by the
    length of the first. *)
Theorem periods_compose_at_a_dry_sample (pre rest : list Minute) :
  zero pre (length pre - 1) = true →
  summary_periods (pre ++ rest) =
  summary_periods pre ++
  map (shift (Z.of_nat (length pre))) (summary_periods rest).
Proof.
  intros (periods & Hstate & Hperiods)%closed_after_zero.
  rewrite Hperiods. unfold summary_periods at 1, enumerate.
  rewrite enumerate_from_app, fold_left_app.
  fold (enumerate pre). rewrite Hstate.
  assert (Hshift :
    {| precipitation_periods := periods; current_period_start := None;
       current_period_type := None; current_period_max_intensity := 0 |} =
    shift_state periods (Z.of_nat (length pre)) loop_init)
    by (unfold shift_state; simpl; by rewrite app_nil_r).
  rewrite Hshift, summary_loop_shift.
  rewrite length_app, Nat2Z.inj_add, Z.add_comm.
  by rewrite summary_loop_end_shift.
Qed.

Lemma periods_compose_at_a_dry_sample_witness :
  summary_periods (snow_shower ++ three_showers) =
  summary_periods snow_shower ++
  map (shift (Z.of_nat (length snow_shower))) (summary_periods three_showers).
Proof. apply periods_compose_at_a_dry_sample. reflexivity. Defined.

(** * The icon *)

Lemma icon_periods_eq (minutes : list Minute) :
  icon_periods minutes = summary_periods minutes.
Proof.
  unfold icon_periods, summary_periods.
  assert (Hloop : ∀ ims st,
            fold_left icon_loop_body ims st = fold_left summary_loop_body ims st).
  { induction ims as [|[i m] ims IH]; intros st; simpl; [done|]. apply IH. }
  by rewrite Hloop.
Qed.

Lemma zero_lt (l : list Minute) (k : nat) : zero l k = true → k < length l.
Proof.
  unfold zero. destruct (l !! k) eqn:E; [|done].
  intros _. by eapply lookup_lt_Some.
Qed.

Lemma wet_take (l : list Minute) (n k : nat) : k < n → wet (take n l) k = wet l k.
Proof. intros H. unfold wet. by rewrite lookup_take_lt. Qed.

Lemma zero_take (l : list Minute) (n k : nat) : k < n → zero (take n l) k = zero l k.
Proof. intros H. unfold zero. by rewrite lookup_take_lt. Qed.

(** Once a sample with [intensity > 0] was followed by one with
    [intensity == 0.0], a period has been appended. *)
Lemma a_period_is_closed (pre : list Minute) (i j : nat) :
  wet pre i = true → zero pre j = true → i < j →
  precipitation_periods (fold_left summary_loop_body (enumerate pre) loop_init)
  ≠ [].
Proof.
  intros Hwet Hzero Hij. apply zero_lt in Hzero as Hj.
  rewrite <- (take_drop (S j) pre) at 1.
  unfold enumerate. rewrite enumerate_from_app, fold_left_app.
  fold (enumerate (take (S j) pre)).
  destruct (closed_after_zero (take (S j) pre)) as (periods & -> & Hperiods).
  { rewrite length_take_le by lia. replace (S j - 1) with j by lia.
    by rewrite zero_take by lia. }
  destruct periods as [|p periods].
  { pose proof (proj1 (summary_periods_nil_iff _) Hperiods i) as Hi.
    rewrite wet_take in Hi by lia. congruence. }
  intros Hnil.
  pose proof (summary_loop_grows
    (enumerate_from (0 + Z.of_nat (length (take (S j) pre))) (drop (S j) pre))
    {| precipitation_periods := p :: periods; current_period_start := None;
       current_period_type := None; current_period_max_intensity := 0 |})
    as Hprefix.
  rewrite Hnil in Hprefix. cbn [precipitation_periods] in Hprefix.
  by apply prefix_nil_not in Hprefix.
Qed.

Lemma icon_of_periods_head (p : Period) (ps qs : list Period) (d d' : bool) :
  icon_of_periods (p :: ps) d = icon_of_periods (p :: qs) d'.
Proof. done. Qed.

Lemma icon_of_first_closed_period (pre rest : list Minute) (i j : nat)
    (is_daylight : bool) :
  wet pre i = true → zero pre j = true → i < j →
  icon_of_periods (icon_periods (pre ++ rest)) is_daylight =
  icon_of_periods (icon_periods pre) is_daylight.
Proof.
  intros Hwet Hzero Hij.
  rewrite (icon_periods_eq pre), (icon_periods_eq (pre ++ rest)).
  pose proof (a_period_is_closed pre i j Hwet Hzero Hij) as Hne.
  unfold summary_periods, enumerate.
  rewrite enumerate_from_app, fold_left_app.
  set (st := fold_left summary_loop_body (enumerate_from 0 pre) loop_init) in *.
  destruct (summary_loop_end_grows st (Z.of_nat (length pre)))
    as (last & -> & _).
  destruct (summary_loop_end_grows
              (fold_left summary_loop_body
                 (enumerate_from (0 + Z.of_nat (length pre)) rest) st)
              (Z.of_nat (length (pre ++ rest)))) as (last' & -> & _).
  destruct (summary_loop_grows
              (enumerate_from (0 + Z.of_nat (length pre)) rest) st)
    as [more ->].
  fold (enumerate pre) in Hne. unfold enumerate in Hne. fold st in Hne.
  destruct (precipitation_periods st) as [|p ps]; [done|].
  apply icon_of_periods_head.
Qed.

Lemma icon_of_closed_first_period (coordinator : Coordinator)
    (next_hour_data : NextHour) (i j : nat) :
  forecast_of coordinator = Some next_hour_data →
  wet (default [] (minutes next_hour_data)) i = true →
  zero (default [] (minutes next_hour_data)) j = true →
  i < j < 60 →
  icon (truncated coordinator) = icon coordinator.
Proof.
  destruct coordinator as [lus [[cw [nh|]]|] tr]; [|done..].
  intros [= <-]. destruct nh as [fs fe [ms|]];
    cbn [minutes default from_option id]; [|done].
  intros Hwet Hzero Hij.
  unfold icon, truncated.
  cbn [data forecastNextHour fmap option_fmap option_map minutes
       default from_option id].
  rewrite truthy_list_take.
  destruct (truthy_list ms) eqn:Hms; [|done]. cbn [negb].
  unfold is_daylight_of. cbn [currentWeather].
  pose proof (icon_of_first_closed_period (take 60 ms) (drop 60 ms) i j) as H.
  rewrite take_drop in H. rewrite H; [done|..].
  - by rewrite wet_take by lia.
  - by rewrite zero_take by lia.
  - lia.
Qed.

Lemma icon_of_short_payload (coordinator : Coordinator)
    (next_hour_data : NextHour) :
  forecast_of coordinator = Some next_hour_data →
  length (default [] (minutes next_hour_data)) ≤ 60 →
  icon (truncated coordinator) = icon coordinator.
Proof.
  destruct coordinator as [lus [[cw [nh|]]|] tr]; [|done..].
  intros [= <-]. destruct nh as [fs fe [ms|]];
    cbn [minutes default from_option id]; [|done].
  intros Hlen. unfold icon, truncated.
  cbn [data forecastNextHour fmap option_fmap option_map minutes
       default from_option id].
  by rewrite take_ge by done.
Qed.

(** X9. The icon of a payload is the icon of the payload cut to its first
    60 samples when the payload has no more than 60 samples, and also when,
    within the first 60, a sample with [intensity > 0] is followed by one
    with [intensity == 0.0]: [icon] can differ from it only on a longer
    payload in which no period ends within the hour. *)
Theorem icon_of_truncated_payload (coordinator : Coordinator)
    (next_hour_data : NextHour) :
  forecast_of coordinator = Some next_hour_data →
  length (default [] (minutes next_hour_data)) ≤ 60 ∨
  (∃ i j, i < j < 60 ∧
          wet (default [] (minutes next_hour_data)) i = true ∧
          zero (default [] (minutes next_hour_data)) j = true) →
  icon (truncated coordinator) = icon coordinator.
Proof.
  intros Hforecast [Hshort|(i & j & Hij & Hwet & Hzero)].
  - by eapply icon_of_short_payload.
  - by eapply icon_of_closed_first_period.
Qed.

Lemma icon_of_truncated_payload_witness :
  60 < length (snow_shower ++ rain_after_the_hour) ∧
  wet (snow_shower ++ rain_after_the_hour) 2 = true ∧
  zero (snow_shower ++ rain_after_the_hour) 4 = true ∧
  icon (truncated (coordinator_with (snow_shower ++ rain_after_the_hour))) =
  icon (coordinator_with (snow_shower ++ rain_after_the_hour)).
Proof.
  split_and!; [vm_compute; lia|reflexivity..|].
  apply (icon_of_truncated_payload
           (coordinator_with (snow_shower ++ rain_after_the_hour))
           {| forecastStart := Some "2023-09-08T22:03:04Z";
              forecastEnd := Some "2023-09-08T23:03:04Z";
              minutes := Some (snow_shower ++ rain_after_the_hour) |});
    [reflexivity|].
  right. exists 2, 4. split_and!; [lia|lia|reflexivity..].
Defined.

Lemma icon_of_periods_precipitation (p : Period) (ps : list Period) (d : bool) :
  icon_of_periods (p :: ps) d ∈
  ["mdi:weather-rainy"; "mdi:weather-pouring"; "mdi:weather-snowy";
   "mdi:weather-snowy-heavy"; "mdi:weather-snowy-rainy"; "mdi:weather-hail"].
Proof.
  unfold icon_of_periods.
  repeat case_bool_decide; repeat destruct (Py.lt _ _);
    rewrite !elem_of_cons; auto 10.
Qed.

Lemma icon_with_forecast (lus : bool) (tr : gmap string string)
    (cw : option CurrentWeather) (nh : NextHour) :
  icon {| last_update_success := lus;
          data := Some {| currentWeather := cw; forecastNextHour := Some nh |};
          translations := tr |} =
  icon_of_periods (summary_periods (default [] (minutes nh)))
    (is_daylight_of {| currentWeather := cw; forecastNextHour := Some nh |}).
Proof.
  unfold icon. cbn [data forecastNextHour].
  rewrite <- (icon_periods_eq (default [] (minutes nh))).
  by destruct (default [] (minutes nh)).
Qed.

(** X10. The icon tells the state of the forecast apart: it is
    ["mdi:weather-partly-cloudy"] exactly when the payload has no next-hour
    data set; it is the sunny or the night icon exactly when the data set
    is there and no sample of it, of all the array, has [intensity > 0];
    and of the two it is the night icon exactly when the current weather
    is there and says [daylight] is false. *)
Theorem icon_tells_the_state (coordinator : Coordinator) :
  (icon coordinator = "mdi:weather-partly-cloudy" ↔
   forecast_of coordinator = None) ∧
  (icon coordinator = "mdi:weather-sunny" ∨
   icon coordinator = "mdi:weather-night" ↔
   ∃ nh, forecast_of coordinator = Some nh ∧
         ∀ k, wet (default [] (minutes nh)) k = false) ∧
  (icon coordinator = "mdi:weather-night" ↔
   ∃ payload cw nh,
     data coordinator = Some payload ∧
     currentWeather payload = Some cw ∧ daylight cw = Some false ∧
     forecastNextHour payload = Some nh ∧
     ∀ k, wet (default [] (minutes nh)) k = false).
Proof.
  destruct coordinator as [lus [[cw [nh|]]|] tr].
  2, 3: split_and!; [done|..];
        (split; [by intros [|] || done|]);
        [by intros (? & [=] & _)|by intros (? & ? & ? & [= <-] & ? & ? & [=] & _)
                                 || by intros (? & ? & ? & [=] & _)].
  rewrite icon_with_forecast. unfold forecast_of.
  cbn [data forecastNextHour mbind option_bind].
  destruct (summary_periods (default [] (minutes nh))) as [|p ps] eqn:Hps.
  - pose proof (proj1 (summary_periods_nil_iff _) Hps) as Hdry.
    cbn [icon_of_periods].
    split_and!.
    + split; [|done]. by destruct (is_daylight_of _).
    + split; [eauto|]. intros _. destruct (is_daylight_of _); auto.
    + unfold is_daylight_of. cbn [currentWeather]. split.
      * destruct cw as [[[[]|]]|]; try done. intros _. eauto 10.
      * by intros (? & ? & ? & [= <-] & [= ->] & -> & _).
  - pose proof (icon_of_periods_precipitation p ps
      (is_daylight_of {| currentWeather := cw; forecastNextHour := Some nh |}))
      as Hicon.
    assert (Hwet : ¬ ∀ k, wet (default [] (minutes nh)) k = false).
    { intros Hdry. apply summary_periods_nil_iff in Hdry. congruence. }
    rewrite !elem_of_cons, elem_of_nil in Hicon.
    split_and!.
    + split; [|done]. intros H. rewrite H in Hicon.
      by destruct Hicon as [?|[?|[?|[?|[?|[?|[]]]]]]].
    + split.
      * intros [H|H]; rewrite H in Hicon;
          by destruct Hicon as [?|[?|[?|[?|[?|[?|[]]]]]]].
      * intros (? & [= <-] & Hdry). done.
    + split.
      * intros H. rewrite H in Hicon.
        by destruct Hicon as [?|[?|[?|[?|[?|[?|[]]]]]]].
      * by intros (? & ? & ? & [= <-] & _ & _ & [= <-] & ?).
Qed.

(** * The state and its attributes *)

(** X11. The sensor has a state exactly when the last refresh succeeded
    and the payload has the next-hour data set: [native_value] is [None]
    if the refresh failed or the data set is absent, and a string in every
    other case, whatever the data set holds. *)
Theorem native_value_is_a_string_iff (coordinator : Coordinator) :
  (native_value coordinator = Ok None ↔
   last_update_success coordinator = false ∨ forecast_of coordinator = None) ∧
  (last_update_success coordinator = true →
   is_Some (forecast_of coordinator) →
   ∃ text, native_value coordinator = Ok (Some text)).
Proof.
  assert (Hstring : last_update_success coordinator = true →
            is_Some (forecast_of coordinator) →
            ∃ text, native_value coordinator = Ok (Some text)).
  { destruct coordinator as [lus [[cw [nh|]]|] tr];
      intros Hlus [nh' Hnh]; try done.
    cbn in Hlus. subst lus. unfold native_value.
    cbn [last_update_success data translations forecastNextHour negb].
    replace (truthy_data _) with true by (by destruct cw).
    cbn [negb]. destruct (truthy_next_hour nh); cbn [negb]; [|eauto].
    destruct (default [] (minutes nh)) as [|m ms]; cbn [truthy_list negb];
      [eauto|].
    destruct (_generate_forecast_summary_returns tr (take 60 (m :: ms)))
      as [summary ->]. simpl. eauto. }
  split; [|done]. split.
  - intros Hnone.
    destruct (last_update_success coordinator) eqn:Hlus; [|by left]. right.
    destruct (forecast_of coordinator) eqn:Hnh; [|done].
    destruct Hstring as [text Htext]; [done|eauto|congruence].
  - destruct coordinator as [lus [[cw [nh|]]|] tr]; unfold native_value;
      cbn [last_update_success data translations forecastNextHour];
      intros [->|Hnh]; try done.
    + by destruct lus, (truthy_data _).
    + by destruct lus.
Qed.

(** X12. The attributes are consistent.  Without the next-hour data set
    there are none.  With it, [forecast_start] and [forecast_end] are the
    data set's [forecastStart] and [forecastEnd], present or absent as they
    are there; [minutes] and [minute_count] are set together or not at all,
    [minutes] is never an empty list and [minute_count] is its length. *)
Theorem attributes_are_consistent (coordinator : Coordinator) :
  (forecast_of coordinator = None →
   extra_state_attributes coordinator = no_attributes) ∧
  (∀ nh, forecast_of coordinator = Some nh →
     forecast_start (extra_state_attributes coordinator) = forecastStart nh ∧
     forecast_end (extra_state_attributes coordinator) = forecastEnd nh) ∧
  match attr_minutes (extra_state_attributes coordinator),
        minute_count (extra_state_attributes coordinator) with
  | Some records, Some n => records ≠ [] ∧ n = Z.of_nat (length records)
  | None, None => True
  | _, _ => False
  end.
Proof.
  destruct coordinator as [lus [[cw [nh|]]|] tr];
    unfold extra_state_attributes, forecast_of;
    cbn [data forecastNextHour mbind option_bind]; split_and!; try done.
  - by intros ? [= <-].
  - destruct (default [] (minutes nh)) as [|m ms];
      cbn [truthy_list attr_minutes minute_count]; [done|].
    split; [done|]. by rewrite length_map.
Qed.

(** * Text *)

(** X13. Without a translation, the description of a period reads as the
    tier and the type in title case, ["Light Rain"] to
    ["Heavy Precipitation"], and the dry state reads ["No Precipitation"];
    with a translation, it is the translation. *)
Theorem untranslated_states_read_in_title_case (tr : gmap string string)
    (precip_type : option string) (max_intensity : Q) :
  let key := _get_precipitation_description_key precip_type max_intensity in
  (tr !! state_translation_key key = None →
   _translate_state tr key =
   tier_title (tier_of max_intensity) +:+ " " +:+
   kind_title (kind_of precip_type)) ∧
  (tr !! state_translation_key "no_precipitation" = None →
   _translate_state tr "no_precipitation" = "No Precipitation") ∧
  (∀ state_key text, tr !! state_translation_key state_key = Some text →
                     _translate_state tr state_key = text).
Proof.
  intros key. split_and!.
  - subst key. rewrite description_key_eq.
    unfold _translate_state, state_translation_key. intros ->.
    by destruct (tier_of max_intensity), (kind_of precip_type).
  - unfold _translate_state, state_translation_key. by intros ->.
  - unfold _translate_state, state_translation_key. by intros ?? ->.
Qed.

Lemma append_nil_r (s : string) : s +:+ "" = s.
Proof.
  induction s as [|c s IH]; [done|].
  change (String c (s +:+ "") = String c s). by rewrite IH.
Qed.

(** Text without braces is copied as it is. *)
Lemma format_from_brace_free (kwargs : gmap string string) (s out : string) :
  brace_free s = true → Py.format_from kwargs None out s = Ok (out +:+ s).
Proof.
  revert out. induction s as [|c s IH]; intros out Hs.
  - by rewrite append_nil_r.
  - cbn [brace_free] in Hs.
    apply andb_prop in Hs as [Hc Hs]. apply andb_prop in Hc as [Hopen Hclose].
    transitivity (Py.format_from kwargs None (out +:+ String c EmptyString) s).
    + destruct c as [[] [] [] [] [] [] [] []]; try done.
    + rewrite IH by done. by rewrite append_assoc.
Qed.

Lemma brace_free_replace (s : string) :
  brace_free (Py.replace "_" " " s) = brace_free s.
Proof.
  induction s as [|c s IH]; [done|].
  cbn [Py.replace brace_free]. rewrite IH.
  destruct (Ascii.eqb_spec c "_") as [->|]; done.
Qed.

(** X14. For a key that is not in the table of templates and holds no
    brace, [_translate_forecast] returns the key with its underscores
    turned into spaces, whatever the placeholders are. *)
Theorem unknown_template_key_reads_as_text (key : string)
    (placeholders : gmap string string) :
  templates !! key = None →
  brace_free key = true →
  _translate_forecast key placeholders = Ok (Py.replace "_" " " key).
Proof.
  intros Hkey Hfree. unfold _translate_forecast, Py.format.
  rewrite Hkey. cbn [default from_option id].
  by rewrite format_from_brace_free by (by rewrite brace_free_replace).
Qed.

Lemma unknown_template_key_reads_as_text_witness :
  templates !! "later_today" = None ∧
  brace_free "later_today" = true ∧
  _translate_forecast "later_today" {[ "precipitation" := "Rain" ]} =
  Ok "later today".
Proof.
  split_and!; [reflexivity..|].
  by rewrite unknown_template_key_reads_as_text.
Defined.

(** Inside a field, digits are read as part of its name. *)
Lemma format_from_digits (kwargs : gmap string string)
    (index name out rest : string) :
  Py.all_digits index = true →
  Py.format_from kwargs (Some name) out (index +:+ String "}" rest) =
  let! v := Py.get_field kwargs (name +:+ index) in
  Py.format_from kwargs None (out +:+ v) rest.
Proof.
  revert name. induction index as [|c index IH]; intros name Hdigits.
  - by rewrite append_nil_r.
  - cbn [Py.all_digits] in Hdigits. apply andb_prop in Hdigits as [Hc Hdigits].
    change (String c index +:+ String "}" rest)
      with (String c (index +:+ String "}" rest)).
    transitivity (Py.format_from kwargs (Some (name +:+ String c EmptyString))
                    out (index +:+ String "}" rest)).
    + destruct c as [[] [] [] [] [] [] [] []]; try done.
    + rewrite IH by done. by rewrite append_assoc.
Qed.

Lemma format_from_literal (kwargs : gmap string string)
    (text out rest : string) :
  brace_free text = true →
  Py.format_from kwargs None out (text +:+ rest) =
  Py.format_from kwargs None (out +:+ text) rest.
Proof.
  revert out. induction text as [|c text IH]; intros out Htext.
  - by rewrite append_nil_r.
  - cbn [brace_free] in Htext.
    apply andb_prop in Htext as [Hc Htext]. apply andb_prop in Hc as [Hopen Hclose].
    change (String c text +:+ rest) with (String c (text +:+ rest)).
    transitivity (Py.format_from kwargs None (out +:+ String c EmptyString)
                    (text +:+ rest)).
    + destruct c as [[] [] [] [] [] [] [] []]; try done.
    + rewrite IH by done. by rewrite append_assoc.
Qed.

(** X15. [_translate_forecast] never raises [KeyError] or [ValueError]: its
    [except] clause turns both into the unformatted template.  It does
    raise [IndexError], which the clause does not name, for a key that is
    not in the table and whose first field is positional: [{}], or an
    index of at most nine digits such as [{0}]. *)
Theorem translate_forecast_raises_only_for_positional_fields
    (key : string) (placeholders : gmap string string) :
  _translate_forecast key placeholders ≠ Raise KeyError ∧
  _translate_forecast key placeholders ≠ Raise ValueError ∧
  (∀ text index rest,
     templates !! key = None →
     Py.replace "_" " " key = text +:+ String "{" (index +:+ String "}" rest) →
     brace_free text = true → Py.all_digits index = true →
     String.length index ≤ 9 →
     _translate_forecast key placeholders = Raise IndexError).
Proof.
  split_and!.
  - unfold _translate_forecast. by destruct (Py.format _ _) as [|[]].
  - unfold _translate_forecast. by destruct (Py.format _ _) as [|[]].
  - intros text index rest Hkey Htemplate Htext Hindex _.
    unfold _translate_forecast, Py.format. rewrite Hkey.
    cbn [default from_option id]. rewrite Htemplate.
    rewrite format_from_literal by done.
    assert (Hfield : ∀ out,
      Py.format_from placeholders None out (String "{" (index +:+ String "}" rest)) =
      Py.format_from placeholders (Some "") out (index +:+ String "}" rest)).
    { intros out. destruct index as [|c index]; [done|].
      cbn [Py.all_digits] in Hindex. apply andb_prop in Hindex as [Hc _].
      destruct c as [[] [] [] [] [] [] [] []]; done. }
    rewrite Hfield, format_from_digits by done.
    unfold Py.get_field.
    change ("" +:+ index) with index. by rewrite Hindex.
Qed.

Lemma translate_forecast_raises_only_for_positional_fields_witness :
  templates !! "rain_{0}" = None ∧
  _translate_forecast "rain_{0}" ∅ = Raise IndexError.
Proof.
  split; [reflexivity|].
  apply (proj2 (proj2
    (translate_forecast_raises_only_for_positional_fields "rain_{0}" ∅))
    "rain " "0" ""); (reflexivity || (simpl; lia)).
Defined.
